(** * The IMX6ULL USB camera driver: format negotiation, buffer queue and
      streaming state machine

    Shallow embedding of [src/sensor/drivers/camera_driver/camera_driver.c].
    Every [u32] field of the driver is a [Z] whose wrap-around at [2^32] is
    written out; structs are records, enums are inductive types, and a
    function that writes through a pointer returns the updated value next to
    its [int] result. *)

From Stdlib Require Import ZArith Lia Bool.
From Stdlib Require Import Strings.Byte.
From Stdlib Require Strings.String.
From stdpp Require Import base list.

Local Open Scope Z_scope.

(** ** Machine integers and the kernel macros the driver uses *)

Definition u32 (x : Z) : Z := x mod 2 ^ 32.

(** [clamp(val, lo, hi)] of <linux/minmax.h>. *)
Definition clamp (val lo hi : Z) : Z :=
  if hi <=? val then hi else if val <=? lo then lo else val.

(** [ALIGN(x, a)] of <linux/align.h> on an unsigned 32-bit [x]:
    [((x) + (mask)) & ~(mask)] with [mask = (typeof(x))(a) - 1]. *)
Definition ALIGN (x a : Z) : Z :=
  let mask := u32 (a - 1) in
  Z.land (u32 (x + mask)) (u32 (Z.lnot mask)).

(** [v4l2_fourcc(a, b, c, d)] of <linux/videodev2.h>. *)
Definition v4l2_fourcc (a b c d : Z) : Z :=
  Z.lor (Z.lor (Z.lor a (Z.shiftl b 8)) (Z.shiftl c 16)) (Z.shiftl d 24).

(* 'M' 'J' 'P' 'G' *)
Definition V4L2_PIX_FMT_MJPEG : Z := v4l2_fourcc 77 74 80 71.
(* 'Y' 'U' 'Y' 'V' *)
Definition V4L2_PIX_FMT_YUYV : Z := v4l2_fourcc 89 85 89 86.

Definition V4L2_BUF_TYPE_VIDEO_CAPTURE : Z := 1.
Definition V4L2_FIELD_NONE : Z := 1.
Definition V4L2_COLORSPACE_SRGB : Z := 8.

Definition ENOMEM : Z := 12.
Definition EBUSY : Z := 16.
Definition EINVAL : Z := 22.

(* Maximum number of buffers *)
Definition MAX_BUFFERS : Z := 4.
Definition MIN_BUFFERS : Z := 2.

(** ** Data model *)

(* Device states *)
Inductive camera_state :=
| CAMERA_STATE_DISCONNECTED
| CAMERA_STATE_CONNECTED
| CAMERA_STATE_STREAMING
| CAMERA_STATE_ERROR.

(** [enum vb2_buffer_state] of <media/videobuf2-core.h>. *)
Inductive vb2_buffer_state :=
| VB2_BUF_STATE_DEQUEUED
| VB2_BUF_STATE_IN_REQUEST
| VB2_BUF_STATE_PREPARING
| VB2_BUF_STATE_QUEUED
| VB2_BUF_STATE_ACTIVE
| VB2_BUF_STATE_DONE
| VB2_BUF_STATE_ERROR.

(** The fields of [struct v4l2_pix_format] the driver reads or writes, and
    [priv], which it never touches. *)
Record v4l2_pix_format := mk_pix {
  width : Z;
  height : Z;
  pixelformat : Z;
  field : Z;
  bytesperline : Z;
  sizeimage : Z;
  colorspace : Z;
  priv : Z
}.

Record v4l2_format := mk_format {
  type : Z;
  pix : v4l2_pix_format
}.

(** A videobuf2 buffer: its index in the queue and its state. *)
Record vb2_buffer := mk_vb {
  vb_index : Z;
  vb_state : vb2_buffer_state
}.

(* Buffer structure *)
Record camera_buffer := mk_buf {
  vb : vb2_buffer;
  size : Z
}.

(** [struct vb2_queue], as far as the driver and the helpers it calls use
    it: the number of allocated buffers and the size of their plane 0, the
    streaming flag, the indices of the buffers the caller queued and has not
    dequeued yet, and the buffers the driver gave back with
    [vb2_buffer_done]. *)
Record vb2_queue := mk_queue {
  num_buffers : Z;
  plane_size : Z;
  streaming : bool;
  queued_list : list Z;
  done_list : list vb2_buffer
}.

(* Main device structure *)
Record camera_device := mk_dev {
  state : camera_state;
  queue : vb2_queue;
  buf_list : list camera_buffer;
  format : v4l2_format;
  frames_received : Z;
  frames_dropped : Z;
  last_frame_time : Z
}.

Definition set_vb_state (b : vb2_buffer) (s : vb2_buffer_state) : vb2_buffer :=
  {| vb_index := vb_index b; vb_state := s |}.

(** ** V4L2 operations *)

(* Try format *)
Definition camera_try_fmt (f : v4l2_format) : Z * v4l2_format :=
  let p := pix f in
  (* Validate pixel format *)
  let pixelformat1 :=
    if negb (pixelformat p =? V4L2_PIX_FMT_MJPEG) &&
       negb (pixelformat p =? V4L2_PIX_FMT_YUYV)
    then V4L2_PIX_FMT_MJPEG else pixelformat p in
  (* Clamp dimensions *)
  let width1 := clamp (width p) 160 1280 in
  let height1 := clamp (height p) 120 720 in
  (* Align to 16-byte boundary for better performance *)
  let width2 := ALIGN width1 16 in
  let height2 := ALIGN height1 2 in
  (* Calculate bytes per line and image size *)
  let bytesperline1 :=
    if pixelformat1 =? V4L2_PIX_FMT_YUYV then u32 (width2 * 2) else 0 in
  let sizeimage1 :=
    if pixelformat1 =? V4L2_PIX_FMT_YUYV
    then u32 (bytesperline1 * height2)
    else u32 (width2 * height2) (* Estimate *) in
  (0, {| type := type f;
         pix := {| width := width2;
                   height := height2;
                   pixelformat := pixelformat1;
                   field := V4L2_FIELD_NONE;
                   bytesperline := bytesperline1;
                   sizeimage := sizeimage1;
                   colorspace := V4L2_COLORSPACE_SRGB;
                   priv := priv p |} |}).

(** [vb2_is_busy] of <media/videobuf2-core.h>: buffers are allocated. *)
Definition vb2_is_busy (q : vb2_queue) : bool := 0 <? num_buffers q.

Definition set_format (d : camera_device) (f : v4l2_format) : camera_device :=
  {| state := state d; queue := queue d; buf_list := buf_list d;
     format := f;
     frames_received := frames_received d;
     frames_dropped := frames_dropped d;
     last_frame_time := last_frame_time d |}.

(* Get current format *)
Definition camera_g_fmt (d : camera_device) : Z * v4l2_format :=
  (0, format d).

(* Set format: the result, the device afterwards and the caller's
   descriptor afterwards *)
Definition camera_s_fmt (d : camera_device) (f : v4l2_format)
  : Z * camera_device * v4l2_format :=
  if vb2_is_busy (queue d) then (- EBUSY, d, f)
  else
    let '(ret, f') := camera_try_fmt f in
    if negb (ret =? 0) then (ret, d, f')
    else (0, set_format d f', f').

(** ** Videobuf2 operations *)

(* Queue setup: the result and [*nbuffers], [*nplanes], [sizes[]]
   afterwards.  [sizes] always has an entry 0 in the kernel (the array has
   VB2_MAX_PLANES entries). *)
Definition camera_queue_setup (d : camera_device)
    (nbuffers nplanes : Z) (sizes : list Z) : Z * Z * Z * list Z :=
  let size := sizeimage (pix (format d)) in
  if negb (nplanes =? 0) then
    ((if hd 0 sizes <? size then - EINVAL else 0), nbuffers, nplanes, sizes)
  else
    let nplanes1 := 1 in
    let sizes1 := size :: tl sizes in
    (* Ensure minimum number of buffers *)
    let nbuffers1 := if nbuffers <? MIN_BUFFERS then MIN_BUFFERS else nbuffers in
    (* Limit maximum buffers for memory conservation *)
    let nbuffers2 := if MAX_BUFFERS <? nbuffers1 then MAX_BUFFERS else nbuffers1 in
    (0, nbuffers2, nplanes1, sizes1).

(* Buffer preparation, on a buffer whose plane 0 has the given size; the
   payload it sets on success is not read by the driver *)
Definition camera_buf_prepare (d : camera_device) (vb2_plane_size : Z) : Z :=
  let size := sizeimage (pix (format d)) in
  if vb2_plane_size <? size then - EINVAL else 0.

Definition set_buf_list (d : camera_device) (l : list camera_buffer)
  : camera_device :=
  {| state := state d; queue := queue d; buf_list := l;
     format := format d;
     frames_received := frames_received d;
     frames_dropped := frames_dropped d;
     last_frame_time := last_frame_time d |}.

Definition set_queue (d : camera_device) (q : vb2_queue) : camera_device :=
  {| state := state d; queue := q; buf_list := buf_list d;
     format := format d;
     frames_received := frames_received d;
     frames_dropped := frames_dropped d;
     last_frame_time := last_frame_time d |}.

(* Buffer queue: list_add_tail(&buf->list, &dev->buf_list) *)
Definition camera_buf_queue (d : camera_device) (buf : camera_buffer)
  : camera_device :=
  set_buf_list d (buf_list d ++ [buf]).

(* Initialize USB streaming: a placeholder that returns success *)
Definition camera_init_streaming (d : camera_device) : Z := 0.

(* Stop USB streaming: empty in the source *)
Definition camera_stop_usb_streaming (d : camera_device) : camera_device := d.

(* Start streaming *)
Definition camera_start_streaming (d : camera_device) (count : Z)
  : Z * camera_device :=
  let ret := camera_init_streaming d in
  if negb (ret =? 0) then (ret, d)
  else
    (0, {| state := CAMERA_STATE_STREAMING;
           queue := queue d; buf_list := buf_list d; format := format d;
           frames_received := 0;
           frames_dropped := 0;
           last_frame_time := last_frame_time d |}).

(** [vb2_buffer_done(vb, state)] of videobuf2-core: the buffer takes the
    given state and is put on the queue's done list. *)
Definition vb2_buffer_done (q : vb2_queue) (b : vb2_buffer)
    (s : vb2_buffer_state) : vb2_queue :=
  {| num_buffers := num_buffers q; plane_size := plane_size q;
     streaming := streaming q;
     queued_list := queued_list q;
     done_list := done_list q ++ [set_vb_state b s] |}.

(** The loop of [camera_return_all_buffers]:
    [list_for_each_entry_safe(buf, tmp, &dev->buf_list, list)] with
    [list_del(&buf->list)] and [vb2_buffer_done] in its body.  It walks the
    list from its head, and each pass unlinks the entry it is at, so the
    list that remains is the part not yet visited. *)
Fixpoint return_each (entries : list camera_buffer) (q : vb2_queue)
    (s : vb2_buffer_state) : list camera_buffer * vb2_queue :=
  match entries with
  | [] => ([], q)
  | buf :: tmp => return_each tmp (vb2_buffer_done q (vb buf) s) s
  end.

(* Return all buffers to videobuf2 *)
Definition camera_return_all_buffers (d : camera_device)
    (s : vb2_buffer_state) : camera_device :=
  let '(l, q) := return_each (buf_list d) (queue d) s in
  set_queue (set_buf_list d l) q.

Definition set_state (d : camera_device) (s : camera_state) : camera_device :=
  {| state := s; queue := queue d; buf_list := buf_list d;
     format := format d;
     frames_received := frames_received d;
     frames_dropped := frames_dropped d;
     last_frame_time := last_frame_time d |}.

(* Stop streaming *)
Definition camera_stop_streaming (d : camera_device) : camera_device :=
  (* Stop USB streaming *)
  let d1 := camera_stop_usb_streaming d in
  (* Return all buffers *)
  let d2 := camera_return_all_buffers d1 VB2_BUF_STATE_ERROR in
  set_state d2 CAMERA_STATE_CONNECTED.

(** The device as [camera_probe] leaves it: [kzalloc]ed, state CONNECTED,
    an empty buffer list, an initialised queue, and the default format of
    [camera_create_video_device]. *)
Definition empty_queue : vb2_queue :=
  {| num_buffers := 0; plane_size := 0; streaming := false;
     queued_list := []; done_list := [] |}.

Definition default_format : v4l2_format :=
  {| type := V4L2_BUF_TYPE_VIDEO_CAPTURE;
     pix := {| width := 640; height := 480;
               pixelformat := V4L2_PIX_FMT_MJPEG;
               field := V4L2_FIELD_NONE;
               bytesperline := 0; sizeimage := 0;
               colorspace := V4L2_COLORSPACE_SRGB;
               priv := 0 |} |}.

Definition camera_probe : camera_device :=
  {| state := CAMERA_STATE_CONNECTED;
     queue := empty_queue;
     buf_list := [];
     format := default_format;
     frames_received := 0;
     frames_dropped := 0;
     last_frame_time := 0 |}.

(** ** The videobuf2 helpers wired into [camera_ioctl_ops] and [camera_fops]

    The driver leaves buffer requests, queueing and stream on/off to the
    stock helpers [vb2_ioctl_reqbufs], [vb2_ioctl_qbuf], [vb2_ioctl_dqbuf],
    [vb2_ioctl_streamon], [vb2_ioctl_streamoff] and [vb2_fop_release].
    They are kernel code; what follows is the part of videobuf2-core that
    decides when the driver's callbacks run and what they are given.
    Memory allocation is taken to succeed, and [min_buffers_needed] is 0
    because [camera_init_vb2_queue] does not set it, so [start_streaming]
    is called as soon as the stream is turned on. *)

Definition EAGAIN : Z := 11.
Definition VB2_MAX_FRAME : Z := 32.

(** [__vb2_queue_cancel]: stop the driver if it was started, then forget
    every queued and done buffer. *)
Definition vb2_queue_cancel (d : camera_device) : camera_device :=
  let d1 := if streaming (queue d) then camera_stop_streaming d else d in
  set_queue d1
    {| num_buffers := num_buffers (queue d1);
       plane_size := plane_size (queue d1);
       streaming := false; queued_list := []; done_list := [] |}.

Definition vb2_queue_free (d : camera_device) : camera_device :=
  set_queue d
    {| num_buffers := 0; plane_size := 0;
       streaming := streaming (queue d);
       queued_list := queued_list (queue d);
       done_list := done_list (queue d) |}.

(** [vb2_core_reqbufs]. *)
Definition vb2_ioctl_reqbufs (d : camera_device) (count : Z)
  : Z * camera_device :=
  if streaming (queue d) then (- EBUSY, d)
  else
    let d1 :=
      if (count =? 0) || negb (num_buffers (queue d) =? 0)
      then vb2_queue_free (vb2_queue_cancel d) else d in
    if count =? 0 then (0, d1)
    else
      let num := Z.min count VB2_MAX_FRAME in
      let '(ret, nbuffers, _, sizes) := camera_queue_setup d1 num 0 [0] in
      if negb (ret =? 0) then (ret, d1)
      else
        (0, set_queue d1
              {| num_buffers := nbuffers; plane_size := hd 0 sizes;
                 streaming := streaming (queue d1);
                 queued_list := queued_list (queue d1);
                 done_list := done_list (queue d1) |}).

(** [__enqueue_in_driver]: the buffer becomes ACTIVE and is given to
    [buf_queue]. *)
Definition enqueue_in_driver (d : camera_device) (index : Z) : camera_device :=
  camera_buf_queue d
    {| vb := {| vb_index := index; vb_state := VB2_BUF_STATE_ACTIVE |};
       size := 0 |}.

Definition Z_mem (x : Z) (l : list Z) : bool := existsb (Z.eqb x) l.

(** [vb2_core_qbuf]. *)
Definition vb2_ioctl_qbuf (d : camera_device) (index : Z)
  : Z * camera_device :=
  let q := queue d in
  if (index <? 0) || (num_buffers q <=? index) then (- EINVAL, d)
  else if Z_mem index (queued_list q) then (- EINVAL, d)
  else
    let ret := camera_buf_prepare d (plane_size q) in
    if negb (ret =? 0) then (ret, d)
    else
      let d1 := set_queue d
        {| num_buffers := num_buffers q; plane_size := plane_size q;
           streaming := streaming q;
           queued_list := queued_list q ++ [index];
           done_list := done_list q |} in
      if streaming q then (0, enqueue_in_driver d1 index) else (0, d1).

(** [vb2_core_dqbuf] on a file opened with O_NONBLOCK, as the test program
    opens the device.  [__vb2_wait_for_done_vb] refuses with EINVAL when
    the queue is not streaming, before it looks at the done list; with the
    queue streaming and no buffer done it returns EAGAIN instead of
    sleeping; otherwise the oldest done buffer goes back to the caller. *)
Definition vb2_ioctl_dqbuf (d : camera_device) : Z * camera_device :=
  let q := queue d in
  if negb (streaming q) then (- EINVAL, d)
  else
    match done_list q with
    | [] => (- EAGAIN, d)
    | b :: rest =>
        (0, set_queue d
              {| num_buffers := num_buffers q; plane_size := plane_size q;
                 streaming := streaming q;
                 queued_list :=
                   List.filter (fun i => negb (i =? vb_index b))
                     (queued_list q);
                 done_list := rest |})
    end.

(** [vb2_core_streamon] with [vb2_start_streaming]. *)
Definition vb2_ioctl_streamon (d : camera_device) : Z * camera_device :=
  let q := queue d in
  if streaming q then (0, d)
  else if num_buffers q =? 0 then (- EINVAL, d)
  else
    let d1 := fold_left enqueue_in_driver (queued_list q) d in
    let '(ret, d2) := camera_start_streaming d1 (Z.of_nat (length (buf_list d1))) in
    if negb (ret =? 0) then (ret, d2)
    else
      (0, set_queue d2
            {| num_buffers := num_buffers (queue d2);
               plane_size := plane_size (queue d2);
               streaming := true;
               queued_list := queued_list (queue d2);
               done_list := done_list (queue d2) |}).

(** [vb2_core_streamoff]. *)
Definition vb2_ioctl_streamoff (d : camera_device) : Z * camera_device :=
  (0, vb2_queue_cancel d).

(** [vb2_fop_release] of the file that owns the queue. *)
Definition vb2_fop_release (d : camera_device) : Z * camera_device :=
  (0, vb2_queue_free (vb2_queue_cancel d)).

(** The requests a caller can make on the video device. *)
Inductive request :=
| VIDIOC_G_FMT
| VIDIOC_S_FMT (f : v4l2_format)
| VIDIOC_TRY_FMT (f : v4l2_format)
| VIDIOC_REQBUFS (count : Z)
| VIDIOC_QBUF (index : Z)
| VIDIOC_DQBUF
| VIDIOC_STREAMON
| VIDIOC_STREAMOFF
| RELEASE.

(** The device after a request (the dispatch of [camera_ioctl_ops]). *)
Definition serve (d : camera_device) (r : request) : camera_device :=
  match r with
  | VIDIOC_G_FMT => d
  | VIDIOC_S_FMT f => snd (fst (camera_s_fmt d f))
  | VIDIOC_TRY_FMT f => d
  | VIDIOC_REQBUFS count => snd (vb2_ioctl_reqbufs d count)
  | VIDIOC_QBUF index => snd (vb2_ioctl_qbuf d index)
  | VIDIOC_DQBUF => snd (vb2_ioctl_dqbuf d)
  | VIDIOC_STREAMON => snd (vb2_ioctl_streamon d)
  | VIDIOC_STREAMOFF => snd (vb2_ioctl_streamoff d)
  | RELEASE => snd (vb2_fop_release d)
  end.

(** A device state is reachable when some sequence of requests leads to it
    from the state [camera_probe] sets up. *)
Definition reachable (d : camera_device) : Prop :=
  exists rs : list request, fold_left serve rs camera_probe = d.

(** ** The capture engine: buffer pool and YUYV frame assembly

    The driver declares [camera_urb_complete] and the frame-assembly fields
    of [struct camera_streaming] ([frame_buffer], [frame_size], [frame_pos],
    [frame_complete]) in camera_driver.h, but the completion path itself is
    not in the source: [camera_urb_complete] has no definition and
    [camera_init_streaming] is a placeholder.  The definitions of this
    module follow the specification of the engine (BufferPool and
    FrameAssembler). *)

Module Engine.

Local Open Scope nat_scope.

(** Modelled from the spec: the buffer states
    [Free -> Queued -> Filling -> Ready], and [Error]. *)
Inductive BufferState := Free | Queued | Filling | Ready | Error.

#[global] Instance BufferState_eq_dec : EqDecision BufferState.
Proof. solve_decision. Defined.

(** Modelled from the spec: a buffer
    [{ index, storage of fixed capacity, bytes_filled, state, sequence }];
    [storage] holds the bytes written so far.  The timestamp is left out. *)
Record Buffer := mk_buffer {
  index : nat;
  capacity : nat;
  storage : list byte;
  bytes_filled : nat;
  state : BufferState;
  sequence : nat
}.

(** Modelled from the spec: the statistics counters. *)
Record Statistics := mk_stats {
  frames_received : nat;
  frames_dropped : nat;
  bytes_received : nat;
  errors : nat
}.

(** Modelled from the spec: the engine state the completion path works on:
    the buffer pool, the FIFO of ready buffer handles, the handle of the
    buffer being filled, the frame size of the active format, the sequence
    number of the next frame, and the statistics. *)
Record engine := mk_engine {
  pool : list Buffer;
  ready : list nat;
  filling : option nat;
  image_size_bytes : nat;
  next_sequence : nat;
  stats : Statistics
}.

Definition set_pool (e : engine) (p : list Buffer) : engine :=
  {| pool := p; ready := ready e; filling := filling e;
     image_size_bytes := image_size_bytes e;
     next_sequence := next_sequence e; stats := stats e |}.

Definition set_filling (e : engine) (h : option nat) : engine :=
  {| pool := pool e; ready := ready e; filling := h;
     image_size_bytes := image_size_bytes e;
     next_sequence := next_sequence e; stats := stats e |}.

(** Modelled from the spec: a dropped-frame event increments
    [frames_dropped]. *)
Definition count_dropped (e : engine) : engine :=
  {| pool := pool e; ready := ready e; filling := filling e;
     image_size_bytes := image_size_bytes e;
     next_sequence := next_sequence e;
     stats := {| frames_received := frames_received (stats e);
                 frames_dropped := S (frames_dropped (stats e));
                 bytes_received := bytes_received (stats e);
                 errors := errors (stats e) |} |}.

(** Modelled from the spec: [acquire_free] returns a [Free] buffer
    transitioned to [Filling], or [None] if the pool is exhausted.  The
    buffer starts a new frame, so it is handed out empty. *)
Definition acquire_free (p : list Buffer) : option (nat * list Buffer) :=
  match list_find (fun b => state b = Free) p with
  | Some (h, b) =>
      Some (h, <[h := {| index := index b; capacity := capacity b;
                         storage := []; bytes_filled := 0;
                         state := Filling; sequence := sequence b |}]> p)
  | None => None
  end.

(** Modelled from the spec: [mark_ready(handle, bytes_filled, sequence)]
    transitions [Filling -> Ready], puts the buffer on the ready FIFO and
    increments [frames_received] and [bytes_received]; a [bytes_filled]
    above the capacity is rejected and counted as a dropped frame. *)
Definition mark_ready (e : engine) (h n seq : nat) : engine :=
  match pool e !! h with
  | Some b =>
      if bool_decide (state b = Filling) then
        if capacity b <? n then count_dropped e
        else
          {| pool := <[h := {| index := index b; capacity := capacity b;
                               storage := storage b; bytes_filled := n;
                               state := Ready; sequence := seq |}]> (pool e);
             ready := ready e ++ [h];
             filling := filling e;
             image_size_bytes := image_size_bytes e;
             next_sequence := next_sequence e;
             stats := {| frames_received := S (frames_received (stats e));
                         frames_dropped := frames_dropped (stats e);
                         bytes_received := bytes_received (stats e) + n;
                         errors := errors (stats e) |} |}
      else e
  | None => e
  end.

(** Modelled from the spec: a new [Filling] buffer is acquired from the
    pool for the next frame; with no [Free] buffer there is none. *)
Definition start_frame (e : engine) : engine :=
  match acquire_free (pool e) with
  | Some (h, p) => set_filling (set_pool e p) (Some h)
  | None => set_filling e None
  end.

(** Modelled from the spec: a span is appended to the buffer's storage and
    counted in [bytes_filled]. *)
Definition append_span (b : Buffer) (bytes : list byte) : Buffer :=
  {| index := index b; capacity := capacity b;
     storage := storage b ++ bytes;
     bytes_filled := bytes_filled b + length bytes;
     state := state b; sequence := sequence b |}.

(** Modelled from the spec: frames are numbered in the order they
    complete, from the sequence number the engine starts with. *)
Definition bump_sequence (e : engine) : engine :=
  {| pool := pool e; ready := ready e; filling := filling e;
     image_size_bytes := image_size_bytes e;
     next_sequence := S (next_sequence e); stats := stats e |}.

(** Modelled from the spec: YUYV frame assembly, the part of the missing
    completion path that turns spans into frames; purely byte-counting.
    The span is appended to the buffer currently in [Filling]; when
    [bytes_filled = image_size_bytes] the buffer is marked [Ready] at once
    and a new [Filling] buffer is acquired.  A span that would overflow the
    expected size is truncated to the remaining space and counted as a
    dropped-frame event.  With no buffer to fill and none [Free], the span
    is dropped and counted (backpressure). *)
Definition feed_yuyv (e : engine) (span : list byte) : engine :=
  let e1 := match filling e with Some _ => e | None => start_frame e end in
  match filling e1 with
  | None => count_dropped e1
  | Some h =>
      match pool e1 !! h with
      | None => e1
      | Some b =>
          let room := image_size_bytes e1 - bytes_filled b in
          let b1 := append_span b (take room span) in
          let e2 := set_pool e1 (<[h := b1]> (pool e1)) in
          let e3 := if room <? length span then count_dropped e2 else e2 in
          if bytes_filled b1 =? image_size_bytes e3
          then start_frame
                 (bump_sequence
                    (mark_ready e3 h (bytes_filled b1) (next_sequence e3)))
          else e3
      end
  end.

(** The number of [Ready] buffers in the pool. *)
Definition ready_count (e : engine) : nat :=
  length (filter (fun b => state b = Ready) (pool e)).


(** The assembler has no buffer in hand, or one it has not written to. *)
Definition fresh_or_idle (e : engine) : Prop :=
  filling e = None \/
  exists h2 b2, filling e = Some h2 /\ pool e !! h2 = Some b2 /\
                state b2 = Filling /\ bytes_filled b2 = 0.

(** Buffer [h] is being filled and holds [data] so far. *)
Definition in_progress (e : engine) (h : nat) (data : list byte) : Prop :=
  filling e = Some h /\
  exists b, pool e !! h = Some b /\ state b = Filling /\
            storage b = data /\ bytes_filled b = length data /\
            image_size_bytes e <= capacity b.

(** No buffer of the pool is [Ready] and the ready FIFO is empty. *)
Definition none_ready (e : engine) : Prop :=
  ready e = [] /\
  forall j bj, pool e !! j = Some bj -> state bj <> Ready.

(** Buffer [h] is the one and only [Ready] buffer; it holds the whole
    frame [data] and carries sequence number [seq]. *)
Definition one_ready (e : engine) (h : nat) (data : list byte) (seq : nat)
  : Prop :=
  ready e = [h] /\
  (exists b, pool e !! h = Some b /\ state b = Ready /\
             bytes_filled b = image_size_bytes e /\
             storage b = data /\ sequence b = seq) /\
  (forall j bj, pool e !! j = Some bj -> state bj = Ready -> j = h) /\
  0 < image_size_bytes e.

Definition completed (e : engine) (h : nat) (data : list byte) (seq : nat)
  : Prop :=
  one_ready e h data seq /\ fresh_or_idle e.

(** A two-buffer pool for 4-byte frames, with the first buffer in hand. *)
Definition four_byte_engine : engine :=
  start_frame
    {| pool := [ {| index := 0; capacity := 4; storage := [];
                    bytes_filled := 0; state := Free; sequence := 0 |};
                 {| index := 1; capacity := 4; storage := [];
                    bytes_filled := 0; state := Free; sequence := 0 |} ];
       ready := [];
       filling := None;
       image_size_bytes := 4;
       next_sequence := 0;
       stats := {| frames_received := 0; frames_dropped := 0;
                   bytes_received := 0; errors := 0 |} |}.

Definition four_byte_spans : list (list byte) :=
  [[x01]; [x02; x03]; []; [x04]].

(** Modelled from the spec: the pixel formats of a FormatDescriptor. *)
Inductive PixelFormat := MJPEG | YUYV.

(** Modelled from the spec: the two-byte start and end markers of an MJPEG
    frame.  The spec does not give their values; they are the JPEG ones,
    SOI (FF D8) and EOI (FF D9). *)
Definition start_marker : byte * byte := (xff, xd8).
Definition end_marker : byte * byte := (xff, xd9).

(** Modelled from the spec: the frame assembler of the missing completion
    path: the engine it fills, the active pixel format, and, for MJPEG,
    whether a start marker has been seen and the one byte of lookback it
    carries across spans. *)
Record assembler := mk_assembler {
  eng : engine;
  pixel_format : PixelFormat;
  in_frame : bool;
  lookback : option byte
}.

(** The byte [x], after the byte in [prev], completes the marker [m]. *)
Definition completes (m : byte * byte) (prev : option byte) (x : byte) : bool :=
  match prev with
  | Some p => Byte.eqb p (fst m) && Byte.eqb x (snd m)
  | None => false
  end.

(** Modelled from the spec: bytes that belong to no frame are counted as
    [bytes_received]. *)
Definition count_bytes (e : engine) (n : nat) : engine :=
  {| pool := pool e; ready := ready e; filling := filling e;
     image_size_bytes := image_size_bytes e;
     next_sequence := next_sequence e;
     stats := {| frames_received := frames_received (stats e);
                 frames_dropped := frames_dropped (stats e);
                 bytes_received := bytes_received (stats e) + n;
                 errors := errors (stats e) |} |}.


(** The buffer, emptied for a new frame. *)
Definition emptied (b : Buffer) : Buffer :=
  {| index := index b; capacity := capacity b;
     storage := []; bytes_filled := 0;
     state := state b; sequence := sequence b |}.

(** Modelled from the spec: MJPEG scanning outside a frame.  A byte that
    completes the start marker begins a frame: the marker is written to
    the buffer in hand (one is acquired if there is none; with none free
    the frame is dropped, backpressure).  The first byte of a possible
    marker is held as lookback; any other byte, and a held byte that
    turned out not to start a marker, is discarded and counted as
    [bytes_received]. *)
Definition scan_idle (a : assembler) (x : byte) : assembler :=
  let e := eng a in
  if completes start_marker (lookback a) x then
    let e1 := match filling e with Some _ => e | None => start_frame e end in
    match filling e1 with
    | None =>
        {| eng := count_dropped e1; pixel_format := pixel_format a;
           in_frame := false; lookback := None |}
    | Some h =>
        match pool e1 !! h with
        | None =>
            {| eng := e1; pixel_format := pixel_format a;
               in_frame := false; lookback := None |}
        | Some b =>
            {| eng := set_pool e1
                        (<[h := append_span (emptied b)
                                  [fst start_marker; x]]> (pool e1));
               pixel_format := pixel_format a;
               in_frame := true; lookback := Some x |}
        end
    end
  else
    let held := match lookback a with Some _ => 1 | None => 0 end in
    if Byte.eqb x (fst start_marker) then
      {| eng := count_bytes e held; pixel_format := pixel_format a;
         in_frame := false; lookback := Some x |}
    else
      {| eng := count_bytes e (held + 1); pixel_format := pixel_format a;
         in_frame := false; lookback := None |}.

(** Modelled from the spec: MJPEG scanning inside a frame.  The byte is
    appended to the buffer being filled; when it completes the end marker
    the buffer is marked [Ready] at exactly [bytes_filled] and a new
    buffer is acquired.  A buffer that is full before an end marker was
    found is discarded as corrupt ([frames_dropped]) and the assembler
    goes back to scanning for a start marker, beginning with this byte. *)
Definition scan_frame (a : assembler) (x : byte) : assembler :=
  let e := eng a in
  let resync (e' : engine) :=
    scan_idle {| eng := e'; pixel_format := pixel_format a;
                 in_frame := false; lookback := None |} x in
  match filling e with
  | None => resync e
  | Some h =>
      match pool e !! h with
      | None => resync e
      | Some b =>
          if capacity b <=? bytes_filled b then
            resync (count_dropped (set_pool e (<[h := emptied b]> (pool e))))
          else
            let b1 := append_span b [x] in
            let e1 := set_pool e (<[h := b1]> (pool e)) in
            if completes end_marker (lookback a) x then
              {| eng := start_frame
                          (bump_sequence
                             (mark_ready e1 h (bytes_filled b1)
                                (next_sequence e1)));
                 pixel_format := pixel_format a;
                 in_frame := false; lookback := None |}
            else
              {| eng := e1; pixel_format := pixel_format a;
                 in_frame := true; lookback := Some x |}
      end
  end.

(** Modelled from the spec: MJPEG frame assembly, scan-based: every byte
    of the span goes through the scanner, which keeps its state across
    spans. *)
Definition feed_mjpeg (a : assembler) (span : list byte) : assembler :=
  fold_left (fun a x => if in_frame a then scan_frame a x else scan_idle a x)
    span a.



(** An idle MJPEG assembler over two free 8-byte buffers. *)
Definition mjpeg_assembler : assembler :=
  {| eng := {| pool := [ {| index := 0; capacity := 8; storage := [];
                            bytes_filled := 0; state := Free;
                            sequence := 0 |};
                         {| index := 1; capacity := 8; storage := [];
                            bytes_filled := 0; state := Free;
                            sequence := 0 |} ];
               ready := [];
               filling := None;
               image_size_bytes := 8;
               next_sequence := 0;
               stats := {| frames_received := 0; frames_dropped := 0;
                           bytes_received := 0; errors := 0 |} |};
     pixel_format := MJPEG;
     in_frame := false;
     lookback := None |}.

End Engine.

(** ** Predicates and sample inputs of the statements below *)

(** The pixel-format step of [camera_try_fmt] on its own. *)
Definition coerce_pixelformat (pf : Z) : Z :=
  if negb (pf =? V4L2_PIX_FMT_MJPEG) && negb (pf =? V4L2_PIX_FMT_YUYV)
  then V4L2_PIX_FMT_MJPEG else pf.

(** A request for 640x480 YUYV, as a caller fills it in. *)
Definition yuyv_640x480 : v4l2_format :=
  {| type := V4L2_BUF_TYPE_VIDEO_CAPTURE;
     pix := {| width := 640; height := 480;
               pixelformat := V4L2_PIX_FMT_YUYV;
               field := 0; bytesperline := 0; sizeimage := 0;
               colorspace := 0; priv := 0 |} |}.

(** A request for a pixel format the driver does not offer:
    'R' 'G' 'B' '3'. *)
Definition rgb24_request : v4l2_format :=
  {| type := V4L2_BUF_TYPE_VIDEO_CAPTURE;
     pix := {| width := 640; height := 480;
               pixelformat := v4l2_fourcc 82 71 66 51;
               field := 0; bytesperline := 0; sizeimage := 0;
               colorspace := 0; priv := 0 |} |}.

(** What ties the driver's [state] to the queue: the device is Streaming
    only while the queue streams, and the queue streams only with buffers
    allocated. *)
Definition queue_inv (d : camera_device) : Prop :=
  0 <= num_buffers (queue d) /\
  (state d = CAMERA_STATE_STREAMING -> streaming (queue d) = true) /\
  (streaming (queue d) = true -> 0 < num_buffers (queue d)).

(** A device that was given four buffers, had two of them queued and was
    then started. *)
Definition streaming_device : camera_device :=
  fold_left serve
    [VIDIOC_REQBUFS 4; VIDIOC_QBUF 0; VIDIOC_QBUF 1; VIDIOC_STREAMON]
    camera_probe.

(** The statistics counters of [struct camera_device]. *)
Definition counters (d : camera_device) : Z * Z :=
  (frames_received d, frames_dropped d).


(** ** Format enumeration, advertised frame sizes, probe and disconnect

    The rest of camera_driver.c: the format table behind
    [camera_enum_fmt], the frame-size table, and the life cycle of the
    device in [camera_probe] and [camera_disconnect]. *)

Import String.StringSyntax.

Definition V4L2_FMT_FLAG_COMPRESSED : Z := 1.
Definition V4L2_FRMSIZE_TYPE_DISCRETE : Z := 1.

(* camera_driver.h: CAMERA_MAX_FRAME_SIZE (1280 * 720 * 2) *)
Definition CAMERA_MAX_FRAME_SIZE : Z := 1280 * 720 * 2.

(** [struct v4l2_fmtdesc]. *)
Record v4l2_fmtdesc := mk_fmtdesc {
  fmtdesc_index : Z;
  fmtdesc_type : Z;
  fmtdesc_flags : Z;
  fmtdesc_description : String.string;
  fmtdesc_pixelformat : Z
}.

Local Open Scope string_scope.

(* Supported pixel formats *)
Definition formats : list v4l2_fmtdesc :=
  [ {| fmtdesc_index := 0;
       fmtdesc_type := V4L2_BUF_TYPE_VIDEO_CAPTURE;
       fmtdesc_flags := V4L2_FMT_FLAG_COMPRESSED;
       fmtdesc_description := "Motion-JPEG";
       fmtdesc_pixelformat := V4L2_PIX_FMT_MJPEG |};
    {| fmtdesc_index := 1;
       fmtdesc_type := V4L2_BUF_TYPE_VIDEO_CAPTURE;
       fmtdesc_flags := 0;
       fmtdesc_description := "YUYV 4:2:2";
       fmtdesc_pixelformat := V4L2_PIX_FMT_YUYV |} ].

Local Close Scope string_scope.

(** The discrete entries of [struct v4l2_frmsizeenum]. *)
Record v4l2_frmsizeenum := mk_frmsize {
  frmsize_index : Z;
  frmsize_pixel_format : Z;
  frmsize_type : Z;
  discrete_width : Z;
  discrete_height : Z
}.

(* Supported frame sizes *)
Definition frame_sizes : list v4l2_frmsizeenum :=
  [ {| frmsize_index := 0; frmsize_pixel_format := V4L2_PIX_FMT_MJPEG;
       frmsize_type := V4L2_FRMSIZE_TYPE_DISCRETE;
       discrete_width := 640; discrete_height := 480 |};
    {| frmsize_index := 1; frmsize_pixel_format := V4L2_PIX_FMT_MJPEG;
       frmsize_type := V4L2_FRMSIZE_TYPE_DISCRETE;
       discrete_width := 1280; discrete_height := 720 |};
    {| frmsize_index := 0; frmsize_pixel_format := V4L2_PIX_FMT_YUYV;
       frmsize_type := V4L2_FRMSIZE_TYPE_DISCRETE;
       discrete_width := 640; discrete_height := 480 |} ].

Definition ARRAY_SIZE {A : Type} (arr : list A) : Z := Z.of_nat (length arr).

(* Enumerate supported formats: the result and [*f] afterwards.  [f->index]
   is a [__u32]; below [ARRAY_SIZE(formats)] it is a valid position of the
   table. *)
Definition camera_enum_fmt (f : v4l2_fmtdesc) : Z * v4l2_fmtdesc :=
  if ARRAY_SIZE formats <=? fmtdesc_index f then (- EINVAL, f)
  else (0, nth (Z.to_nat (fmtdesc_index f)) formats f).

(** The loop of [test_format_setting] in tests/camera_test.c:
    [while (ioctl(fd, VIDIOC_ENUM_FMT, &fmt_desc) == 0) { ...; fmt_desc.index++; }],
    collecting the descriptors it prints; [fuel] bounds the number of
    passes. *)
Fixpoint enumerate_formats (fuel : nat) (fmt_desc : v4l2_fmtdesc)
  : list v4l2_fmtdesc :=
  match fuel with
  | O => []
  | S fuel' =>
      let '(ret, fmt_desc1) := camera_enum_fmt fmt_desc in
      if negb (ret =? 0) then []
      else
        fmt_desc1 ::
        enumerate_formats fuel'
          {| fmtdesc_index := u32 (fmtdesc_index fmt_desc1 + 1);
             fmtdesc_type := fmtdesc_type fmt_desc1;
             fmtdesc_flags := fmtdesc_flags fmt_desc1;
             fmtdesc_description := fmtdesc_description fmt_desc1;
             fmtdesc_pixelformat := fmtdesc_pixelformat fmt_desc1 |}
  end.

(** A capture request for the given size and pixel format, the other
    fields zeroed as [memset] leaves them. *)
Definition request_format (w h pf : Z) : v4l2_format :=
  {| type := V4L2_BUF_TYPE_VIDEO_CAPTURE;
     pix := {| width := w; height := h; pixelformat := pf;
               field := 0; bytesperline := 0; sizeimage := 0;
               colorspace := 0; priv := 0 |} |}.

(** What the kernel holds for one USB interface: the [kzalloc]ed
    [struct camera_device] if there is one, whether its [v4l2_dev] is
    registered, whether a [struct video_device] is allocated, whether it
    is registered, whether [dev->vdev] points to it, and whether the
    interface data points to the device. *)
Record usb_interface := mk_intf {
  intf_dev : option camera_device;
  v4l2_dev_registered : bool;
  vdev_allocated : bool;
  vdev_registered : bool;
  dev_vdev : bool;
  intfdata : bool
}.

(** What the kernel calls of [camera_probe] return: whether [kzalloc] and
    [video_device_alloc] give memory, and the results of
    [v4l2_device_register], [vb2_queue_init] and [video_register_device].
    A call that returns non-zero has registered nothing. *)
Record probe_outcome := mk_outcome {
  kzalloc_ok : bool;
  v4l2_device_register_ret : Z;
  vb2_queue_init_ret : Z;
  video_device_alloc_ok : bool;
  video_register_device_ret : Z
}.

(** An interface nothing is bound to. *)
Definition unbound : usb_interface :=
  {| intf_dev := None; v4l2_dev_registered := false;
     vdev_allocated := false; vdev_registered := false;
     dev_vdev := false; intfdata := false |}.

(** Zeroed memory for a [struct camera_device]. *)
Definition kzalloc_device : camera_device :=
  {| state := CAMERA_STATE_DISCONNECTED;
     queue := {| num_buffers := 0; plane_size := 0; streaming := false;
                 queued_list := []; done_list := [] |};
     buf_list := [];
     format := {| type := 0;
                  pix := {| width := 0; height := 0; pixelformat := 0;
                            field := 0; bytesperline := 0; sizeimage := 0;
                            colorspace := 0; priv := 0 |} |};
     frames_received := 0;
     frames_dropped := 0;
     last_frame_time := 0 |}.

Definition set_intf_dev (i : usb_interface) (d : option camera_device)
  : usb_interface :=
  {| intf_dev := d; v4l2_dev_registered := v4l2_dev_registered i;
     vdev_allocated := vdev_allocated i; vdev_registered := vdev_registered i;
     dev_vdev := dev_vdev i; intfdata := intfdata i |}.

Definition set_v4l2_dev_registered (i : usb_interface) (b : bool)
  : usb_interface :=
  {| intf_dev := intf_dev i; v4l2_dev_registered := b;
     vdev_allocated := vdev_allocated i; vdev_registered := vdev_registered i;
     dev_vdev := dev_vdev i; intfdata := intfdata i |}.

Definition set_vdev_allocated (i : usb_interface) (b : bool) : usb_interface :=
  {| intf_dev := intf_dev i; v4l2_dev_registered := v4l2_dev_registered i;
     vdev_allocated := b; vdev_registered := vdev_registered i;
     dev_vdev := dev_vdev i; intfdata := intfdata i |}.

Definition set_vdev_registered (i : usb_interface) (b : bool) : usb_interface :=
  {| intf_dev := intf_dev i; v4l2_dev_registered := v4l2_dev_registered i;
     vdev_allocated := vdev_allocated i; vdev_registered := b;
     dev_vdev := dev_vdev i; intfdata := intfdata i |}.

Definition set_dev_vdev (i : usb_interface) (b : bool) : usb_interface :=
  {| intf_dev := intf_dev i; v4l2_dev_registered := v4l2_dev_registered i;
     vdev_allocated := vdev_allocated i; vdev_registered := vdev_registered i;
     dev_vdev := b; intfdata := intfdata i |}.

(** [usb_set_intfdata(intf, dev)] ([true]) and
    [usb_set_intfdata(intf, NULL)] ([false]). *)
Definition usb_set_intfdata (i : usb_interface) (b : bool) : usb_interface :=
  {| intf_dev := intf_dev i; v4l2_dev_registered := v4l2_dev_registered i;
     vdev_allocated := vdev_allocated i; vdev_registered := vdev_registered i;
     dev_vdev := dev_vdev i; intfdata := b |}.

(** [usb_get_intfdata(intf)]: the device, or NULL. *)
Definition usb_get_intfdata (i : usb_interface) : option camera_device :=
  if intfdata i then intf_dev i else None.

(** A write through [dev]. *)
Definition update_dev (g : camera_device -> camera_device) (i : usb_interface)
  : usb_interface :=
  set_intf_dev i (option_map g (intf_dev i)).

Definition kfree_dev (i : usb_interface) : usb_interface := set_intf_dev i None.

Definition v4l2_device_unregister (i : usb_interface) : usb_interface :=
  set_v4l2_dev_registered i false.

(** [video_device_release(vdev)]. *)
Definition video_device_release (i : usb_interface) : usb_interface :=
  set_vdev_allocated i false.

(** [video_unregister_device(vdev)] with no file open: the device node
    goes away and the release callback, [video_device_release], runs. *)
Definition video_unregister_device (i : usb_interface) : usb_interface :=
  video_device_release (set_vdev_registered i false).

(* Initialize VB2 queue: the fields it sets are constants of the driver;
   the result is that of [vb2_queue_init] *)
Definition camera_init_vb2_queue (o : probe_outcome) (i : usb_interface)
  : Z * usb_interface :=
  (vb2_queue_init_ret o, update_dev (fun d => set_queue d empty_queue) i).

(** The six assignments under "Set default format" in
    [camera_create_video_device]. *)
Definition set_default_format (d : camera_device) : camera_device :=
  let p := pix (format d) in
  set_format d
    {| type := V4L2_BUF_TYPE_VIDEO_CAPTURE;
       pix := {| width := 640; height := 480;
                 pixelformat := V4L2_PIX_FMT_MJPEG;
                 field := V4L2_FIELD_NONE;
                 bytesperline := bytesperline p;
                 sizeimage := sizeimage p;
                 colorspace := V4L2_COLORSPACE_SRGB;
                 priv := priv p |} |}.

(* Create video device *)
Definition camera_create_video_device (o : probe_outcome) (i : usb_interface)
  : Z * usb_interface :=
  if negb (video_device_alloc_ok o) then (- ENOMEM, i)
  else
    let i1 := set_vdev_allocated i true in
    (* Set default format *)
    let i2 := update_dev set_default_format i1 in
    let ret := video_register_device_ret o in
    if negb (ret =? 0) then (ret, video_device_release i2)
    else (0, set_dev_vdev (set_vdev_registered i2 true) true).

(* USB probe function, with its error paths: the result and the interface
   afterwards *)
Definition camera_probe_intf (o : probe_outcome) (i : usb_interface)
  : Z * usb_interface :=
  (* Allocate device structure *)
  if negb (kzalloc_ok o) then (- ENOMEM, i)
  else
    (* Initialize device *)
    let i1 :=
      set_intf_dev i
        (Some (set_buf_list
                 (set_state kzalloc_device CAMERA_STATE_CONNECTED) [])) in
    let error_free (ret : Z) (j : usb_interface) := (ret, kfree_dev j) in
    let error_v4l2 (ret : Z) (j : usb_interface) :=
      error_free ret (v4l2_device_unregister j) in
    (* Register V4L2 device *)
    let ret := v4l2_device_register_ret o in
    if negb (ret =? 0) then error_free ret i1
    else
      let i2 := set_v4l2_dev_registered i1 true in
      (* Initialize video buffer queue *)
      let '(ret, i3) := camera_init_vb2_queue o i2 in
      if negb (ret =? 0) then error_v4l2 ret i3
      else
        (* Create video device *)
        let '(ret, i4) := camera_create_video_device o i3 in
        if negb (ret =? 0) then error_v4l2 ret i4
        else
          (* Set interface data *)
          (0, usb_set_intfdata i4 true).

(* USB disconnect function *)
Definition camera_disconnect (i : usb_interface) : usb_interface :=
  match usb_get_intfdata i with
  | None => i
  | Some _ =>
      let i1 := update_dev (fun d => set_state d CAMERA_STATE_DISCONNECTED) i in
      (* Unregister video device *)
      let i2 :=
        if dev_vdev i1 then set_dev_vdev (video_unregister_device i1) false
        else i1 in
      (* Unregister V4L2 device *)
      let i3 := v4l2_device_unregister i2 in
      (* Clear interface data *)
      let i4 := usb_set_intfdata i3 false in
      (* Free device structure *)
      kfree_dev i4
  end.

(** The interface after a successful probe. *)
Definition bound : usb_interface :=
  {| intf_dev := Some camera_probe; v4l2_dev_registered := true;
     vdev_allocated := true; vdev_registered := true;
     dev_vdev := true; intfdata := true |}.

(** Every kernel call of [camera_probe] succeeds. *)
Definition all_succeed (o : probe_outcome) : bool :=
  kzalloc_ok o && (v4l2_device_register_ret o =? 0) &&
  (vb2_queue_init_ret o =? 0) && video_device_alloc_ok o &&
  (video_register_device_ret o =? 0).

(** The code of the first call that fails. *)
Definition first_failure (o : probe_outcome) : Z :=
  if negb (kzalloc_ok o) then - ENOMEM
  else if negb (v4l2_device_register_ret o =? 0)
       then v4l2_device_register_ret o
  else if negb (vb2_queue_init_ret o =? 0) then vb2_queue_init_ret o
  else if negb (video_device_alloc_ok o) then - ENOMEM
  else video_register_device_ret o.

(** The buffer [__enqueue_in_driver] hands to [camera_buf_queue]. *)
Definition active_buffer (index : Z) : camera_buffer :=
  {| vb := {| vb_index := index; vb_state := VB2_BUF_STATE_ACTIVE |};
     size := 0 |}.

(** A descriptor [camera_try_fmt] returns as it is. *)
Definition negotiated (f : v4l2_format) : Prop := camera_try_fmt f = (0, f).

(** What every request keeps true of the device. *)
Definition driver_inv (d : camera_device) : Prop :=
  let q := queue d in
  (format d = default_format \/ negotiated (format d)) /\
  (0 < num_buffers q -> plane_size q = sizeimage (pix (format d))) /\
  (num_buffers q = 0 \/ MIN_BUFFERS <= num_buffers q <= MAX_BUFFERS) /\
  state d =
    (if streaming q then CAMERA_STATE_STREAMING else CAMERA_STATE_CONNECTED) /\
  NoDup (queued_list q) /\
  Forall (fun i => 0 <= i < num_buffers q) (queued_list q) /\
  done_list q = [] /\
  buf_list d = (if streaming q then map active_buffer (queued_list q) else []) /\
  counters d = (0, 0).

(** * Properties *)

(** ** Arithmetic of [clamp] and [ALIGN] *)

Lemma u32_small x : 0 <= x < 2 ^ 32 -> u32 x = x.
Proof. intros H. unfold u32. now apply Z.mod_small. Qed.

Lemma clamp_range val lo hi : lo <= hi -> lo <= clamp val lo hi <= hi.
Proof.
  intros H. unfold clamp.
  destruct (Z.leb_spec hi val); [lia|].
  destruct (Z.leb_spec val lo); lia.
Qed.

Lemma clamp_id val lo hi : lo <= val <= hi -> clamp val lo hi = val.
Proof.
  intros H. unfold clamp.
  destruct (Z.leb_spec hi val); [lia|].
  destruct (Z.leb_spec val lo); lia.
Qed.

(** On a power of two, and without overflow, [ALIGN] rounds up to the next
    multiple. *)
Lemma ALIGN_pow2 x k :
  0 <= k < 32 -> 0 <= x -> x + 2 ^ k - 1 < 2 ^ 32 ->
  ALIGN x (2 ^ k) = (x + 2 ^ k - 1) / 2 ^ k * 2 ^ k.
Proof.
  intros Hk Hx Hb. unfold ALIGN.
  assert (Hp : 0 < 2 ^ k) by (apply Z.pow_pos_nonneg; lia).
  assert (Hle : 2 ^ k <= 2 ^ 31) by (apply Z.pow_le_mono_r; lia).
  assert (Hm : u32 (2 ^ k - 1) = 2 ^ k - 1) by (apply u32_small; lia).
  cbv zeta. rewrite Hm.
  replace (x + (2 ^ k - 1)) with (x + 2 ^ k - 1) by lia.
  rewrite (u32_small (x + 2 ^ k - 1)) by lia.
  unfold u32. rewrite <- Z.land_ones by lia.
  rewrite Z.land_assoc, Z.land_ones by lia.
  rewrite <- Z.ldiff_land.
  replace (2 ^ k - 1) with (Z.ones k) by (rewrite Z.ones_equiv; lia).
  rewrite Z.ldiff_ones_r by lia.
  rewrite Z.shiftl_mul_pow2, Z.shiftr_div_pow2 by lia.
  pose proof (Z.mul_div_le (x + 2 ^ k - 1) (2 ^ k) Hp) as Hd.
  assert (0 <= (x + 2 ^ k - 1) / 2 ^ k) by (apply Z.div_pos; lia).
  apply Z.mod_small. nia.
Qed.

Lemma ALIGN_16 x :
  0 <= x <= 2 ^ 32 - 16 -> ALIGN x 16 = (x + 15) / 16 * 16.
Proof.
  intros H. change 16 with (2 ^ 4) at 1.
  rewrite ALIGN_pow2 by lia.
  change (2 ^ 4) with 16. f_equal. f_equal. lia.
Qed.

Lemma ALIGN_2 x :
  0 <= x <= 2 ^ 32 - 2 -> ALIGN x 2 = (x + 1) / 2 * 2.
Proof.
  intros H. change 2 with (2 ^ 1) at 1.
  rewrite ALIGN_pow2 by lia.
  change (2 ^ 1) with 2. f_equal. f_equal. lia.
Qed.

(** What [camera_try_fmt] makes of a requested width and height. *)
Lemma width_negotiated w :
  let w' := ALIGN (clamp w 160 1280) 16 in
  160 <= w' <= 1280 /\ w' mod 16 = 0 /\
  clamp w 160 1280 <= w' < clamp w 160 1280 + 16.
Proof.
  cbv zeta. pose proof (clamp_range w 160 1280 ltac:(lia)) as Hc.
  rewrite ALIGN_16 by lia.
  set (c := clamp w 160 1280) in *.
  pose proof (Z.div_mod (c + 15) 16 ltac:(lia)) as Hd.
  pose proof (Z.mod_pos_bound (c + 15) 16 ltac:(lia)) as Hm.
  split; [|split].
  - assert (10 <= (c + 15) / 16 < 81); [|lia].
    split; [apply Z.div_le_lower_bound | apply Z.div_lt_upper_bound]; lia.
  - apply Z.mod_mul; lia.
  - lia.
Qed.

Lemma height_negotiated h :
  let h' := ALIGN (clamp h 120 720) 2 in
  120 <= h' <= 720 /\ h' mod 2 = 0 /\
  clamp h 120 720 <= h' < clamp h 120 720 + 2.
Proof.
  cbv zeta. pose proof (clamp_range h 120 720 ltac:(lia)) as Hc.
  rewrite ALIGN_2 by lia.
  set (c := clamp h 120 720) in *.
  pose proof (Z.div_mod (c + 1) 2 ltac:(lia)) as Hd.
  pose proof (Z.mod_pos_bound (c + 1) 2 ltac:(lia)) as Hm.
  split; [|split].
  - assert (60 <= (c + 1) / 2 < 361); [|lia].
    split; [apply Z.div_le_lower_bound | apply Z.div_lt_upper_bound]; lia.
  - apply Z.mod_mul; lia.
  - lia.
Qed.

(** An aligned value in range is left alone. *)
Lemma ALIGN_16_fixed x :
  0 <= x <= 2 ^ 32 - 16 -> x mod 16 = 0 -> ALIGN x 16 = x.
Proof.
  intros H Hm. rewrite ALIGN_16 by lia.
  pose proof (Z.div_mod x 16 ltac:(lia)) as Hd.
  replace (x + 15) with (15 + x / 16 * 16) by lia.
  rewrite Z.div_add by lia. change (15 / 16) with 0. lia.
Qed.

Lemma ALIGN_2_fixed x :
  0 <= x <= 2 ^ 32 - 2 -> x mod 2 = 0 -> ALIGN x 2 = x.
Proof.
  intros H Hm. rewrite ALIGN_2 by lia.
  pose proof (Z.div_mod x 2 ltac:(lia)) as Hd.
  replace (x + 1) with (1 + x / 2 * 2) by lia.
  rewrite Z.div_add by lia. change (1 / 2) with 0. lia.
Qed.

(** ** Format negotiation *)

Example ALIGN_examples :
  ALIGN 160 16 = 160 /\ ALIGN 161 16 = 176 /\ ALIGN 1279 16 = 1280 /\
  ALIGN 121 2 = 122 /\ ALIGN 720 2 = 720 /\
  clamp 0 160 1280 = 160 /\ clamp 5000 160 1280 = 1280 /\
  clamp 4294967295 120 720 = 720.
Proof. vm_compute. repeat split. Qed.

Example fourcc_values :
  V4L2_PIX_FMT_MJPEG = 0x47504A4D /\ V4L2_PIX_FMT_YUYV = 0x56595559.
Proof. vm_compute. split; reflexivity. Qed.

Example try_fmt_default_format :
  let p := pix (snd (camera_try_fmt default_format)) in
  width p = 640 /\ height p = 480 /\ bytesperline p = 0 /\
  sizeimage p = 307200.
Proof. vm_compute. repeat split. Qed.

Lemma try_fmt_pixelformat f :
  pixelformat (pix (snd (camera_try_fmt f))) =
  coerce_pixelformat (pixelformat (pix f)).
Proof. reflexivity. Qed.

Lemma coerce_pixelformat_cases pf :
  coerce_pixelformat pf = V4L2_PIX_FMT_MJPEG \/
  coerce_pixelformat pf = V4L2_PIX_FMT_YUYV.
Proof.
  unfold coerce_pixelformat.
  destruct (Z.eqb_spec pf V4L2_PIX_FMT_MJPEG); cbn [negb andb]; [now left|].
  destruct (Z.eqb_spec pf V4L2_PIX_FMT_YUYV); cbn [negb]; [now right|now left].
Qed.

Lemma coerce_pixelformat_idem pf :
  coerce_pixelformat (coerce_pixelformat pf) = coerce_pixelformat pf.
Proof.
  destruct (coerce_pixelformat_cases pf) as [H|H]; rewrite H; reflexivity.
Qed.

Lemma width_negotiated_idem w :
  ALIGN (clamp (ALIGN (clamp w 160 1280) 16) 160 1280) 16 =
  ALIGN (clamp w 160 1280) 16.
Proof.
  destruct (width_negotiated w) as (Hr & Hm & _).
  rewrite clamp_id by lia. apply ALIGN_16_fixed; lia.
Qed.

Lemma height_negotiated_idem h :
  ALIGN (clamp (ALIGN (clamp h 120 720) 2) 120 720) 2 =
  ALIGN (clamp h 120 720) 2.
Proof.
  destruct (height_negotiated h) as (Hr & Hm & _).
  rewrite clamp_id by lia. apply ALIGN_2_fixed; lia.
Qed.

(** [clamp] keeps a value inside the range and takes any other to the
    nearest bound. *)
Lemma clamp_nearest val lo hi :
  lo <= hi ->
  clamp val lo hi = Z.max lo (Z.min val hi) /\
  clamp val lo hi = (if val <? lo then lo else if hi <? val then hi else val).
Proof.
  intros H. unfold clamp.
  destruct (Z.leb_spec hi val), (Z.leb_spec val lo),
    (Z.ltb_spec val lo), (Z.ltb_spec hi val); split; lia.
Qed.

(** C2: for every requested descriptor, [camera_try_fmt] succeeds and the
    descriptor it returns has the requested width clamped into [160,1280]
    (kept when it is in the range, 160 when it is below, 1280 when it is
    above) and then rounded up to a multiple of 16, and the requested
    height clamped into [120,720] in the same way and then rounded up to a
    multiple of 2; both stay inside their ranges.  [camera_s_fmt] returns
    and stores exactly that descriptor unless the queue is busy. *)
Theorem try_fmt_clamps_and_aligns (f : v4l2_format) :
  let f' := snd (camera_try_fmt f) in
  let w := clamp (width (pix f)) 160 1280 in
  let h := clamp (height (pix f)) 120 720 in
  fst (camera_try_fmt f) = 0 /\
  (w = (if width (pix f) <? 160 then 160
        else if 1280 <? width (pix f) then 1280 else width (pix f)) /\
   h = (if height (pix f) <? 120 then 120
        else if 720 <? height (pix f) then 720 else height (pix f))) /\
  (w = Z.max 160 (Z.min (width (pix f)) 1280) /\
   h = Z.max 120 (Z.min (height (pix f)) 720)) /\
  (160 <= w <= 1280 /\ 120 <= h <= 720) /\
  (width (pix f') = ALIGN w 16 /\ height (pix f') = ALIGN h 2) /\
  (width (pix f') =
     (Z.max 160 (Z.min (width (pix f)) 1280) + 15) / 16 * 16 /\
   height (pix f') =
     (Z.max 120 (Z.min (height (pix f)) 720) + 1) / 2 * 2) /\
  (160 <= width (pix f') <= 1280 /\ width (pix f') mod 16 = 0 /\
   w <= width (pix f') < w + 16) /\
  (120 <= height (pix f') <= 720 /\ height (pix f') mod 2 = 0 /\
   h <= height (pix f') < h + 2) /\
  (forall d : camera_device,
     camera_s_fmt d f =
     if vb2_is_busy (queue d) then (- EBUSY, d, f)
     else (0, set_format d f', f')).
Proof.
  cbv zeta.
  destruct (clamp_nearest (width (pix f)) 160 1280 ltac:(lia)) as [Hw1 Hw2].
  destruct (clamp_nearest (height (pix f)) 120 720 ltac:(lia)) as [Hh1 Hh2].
  pose proof (clamp_range (width (pix f)) 160 1280 ltac:(lia)) as Hwr.
  pose proof (clamp_range (height (pix f)) 120 720 ltac:(lia)) as Hhr.
  split; [reflexivity|].
  split; [split; assumption|].
  split; [split; assumption|].
  split; [split; assumption|].
  split; [split; reflexivity|].
  split.
  { change (width (pix (snd (camera_try_fmt f))))
      with (ALIGN (clamp (width (pix f)) 160 1280) 16).
    change (height (pix (snd (camera_try_fmt f))))
      with (ALIGN (clamp (height (pix f)) 120 720) 2).
    rewrite ALIGN_16, ALIGN_2 by lia. rewrite Hw1, Hh1. split; reflexivity. }
  split; [apply (width_negotiated (width (pix f)))|].
  split; [apply (height_negotiated (height (pix f)))|].
  intros d. unfold camera_s_fmt. destruct (vb2_is_busy (queue d)); reflexivity.
Qed.

(** Requests below, inside and above the ranges, and one that is in range
    but not aligned. *)
Example try_fmt_requests :
  let size f := (width (pix (snd (camera_try_fmt f))),
                 height (pix (snd (camera_try_fmt f)))) in
  size (request_format 640 480 V4L2_PIX_FMT_MJPEG) = (640, 480) /\
  size (request_format 0 0 V4L2_PIX_FMT_MJPEG) = (160, 120) /\
  size (request_format 4000 3000 V4L2_PIX_FMT_MJPEG) = (1280, 720) /\
  size (request_format 641 481 V4L2_PIX_FMT_MJPEG) = (656, 482) /\
  size (request_format 1279 719 V4L2_PIX_FMT_YUYV) = (1280, 720).
Proof. vm_compute. repeat split. Qed.

(** C3: in the descriptor [camera_try_fmt] returns, a YUYV format has
    [bytesperline = width * 2] and [sizeimage = width * height * 2], and
    any other outcome is MJPEG with [sizeimage = width * height]; none of
    the products wraps around.  A 640x480 YUYV request yields
    [sizeimage = 614400]. *)
Theorem try_fmt_image_size :
  (forall f : v4l2_format,
     let p := pix (snd (camera_try_fmt f)) in
     if pixelformat p =? V4L2_PIX_FMT_YUYV
     then bytesperline p = width p * 2 /\
          sizeimage p = width p * height p * 2
     else pixelformat p = V4L2_PIX_FMT_MJPEG /\
          sizeimage p = width p * height p) /\
  (let p := pix (snd (camera_try_fmt yuyv_640x480)) in
   width p = 640 /\ height p = 480 /\
   pixelformat p = V4L2_PIX_FMT_YUYV /\
   bytesperline p = 1280 /\ sizeimage p = 614400).
Proof.
  split; [|vm_compute; repeat split; reflexivity].
  intros f. cbv zeta.
  destruct (width_negotiated (width (pix f))) as (Hw & _ & _).
  destruct (height_negotiated (height (pix f))) as (Hh & _ & _).
  unfold camera_try_fmt.
  cbn [snd pix width height pixelformat bytesperline sizeimage].
  fold (coerce_pixelformat (pixelformat (pix f))).
  set (w := ALIGN (clamp (width (pix f)) 160 1280) 16) in *.
  set (h := ALIGN (clamp (height (pix f)) 120 720) 2) in *.
  destruct (Z.eqb_spec (coerce_pixelformat (pixelformat (pix f)))
              V4L2_PIX_FMT_YUYV) as [Hy|Hy].
  - rewrite (u32_small (w * 2)) by lia.
    split; [reflexivity|]. rewrite u32_small by nia. lia.
  - destruct (coerce_pixelformat_cases (pixelformat (pix f))) as [Hc|Hc];
      [|contradiction].
    split; [exact Hc|]. apply u32_small. nia.
Qed.

(** C5: a descriptor whose pixel format is neither MJPEG nor YUYV is not
    rejected: [camera_try_fmt] returns 0 with the pixel format set to
    MJPEG, and so does [camera_s_fmt] on a queue that is not busy. *)
Theorem try_fmt_coerces_unknown_pixelformat (f : v4l2_format) :
  pixelformat (pix f) <> V4L2_PIX_FMT_MJPEG ->
  pixelformat (pix f) <> V4L2_PIX_FMT_YUYV ->
  fst (camera_try_fmt f) = 0 /\
  pixelformat (pix (snd (camera_try_fmt f))) = V4L2_PIX_FMT_MJPEG /\
  (forall d : camera_device,
     vb2_is_busy (queue d) = false ->
     fst (fst (camera_s_fmt d f)) = 0 /\
     pixelformat (pix (format (snd (fst (camera_s_fmt d f))))) =
     V4L2_PIX_FMT_MJPEG).
Proof.
  intros Hm Hy.
  assert (Hc : coerce_pixelformat (pixelformat (pix f)) = V4L2_PIX_FMT_MJPEG).
  { unfold coerce_pixelformat.
    destruct (Z.eqb_spec (pixelformat (pix f)) V4L2_PIX_FMT_MJPEG);
      [contradiction|].
    destruct (Z.eqb_spec (pixelformat (pix f)) V4L2_PIX_FMT_YUYV);
      [contradiction|reflexivity]. }
  split; [reflexivity|]. split; [rewrite try_fmt_pixelformat; exact Hc|].
  intros d Hb. unfold camera_s_fmt. rewrite Hb.
  split; [reflexivity|].
  cbn [fst snd format set_format camera_try_fmt pix pixelformat].
  exact Hc.
Qed.

Lemma try_fmt_coerces_rgb24 :
  fst (camera_try_fmt rgb24_request) = 0 /\
  pixelformat (pix (snd (camera_try_fmt rgb24_request))) = V4L2_PIX_FMT_MJPEG /\
  (forall d : camera_device,
     vb2_is_busy (queue d) = false ->
     fst (fst (camera_s_fmt d rgb24_request)) = 0 /\
     pixelformat (pix (format (snd (fst (camera_s_fmt d rgb24_request))))) =
     V4L2_PIX_FMT_MJPEG).
Proof.
  apply (try_fmt_coerces_unknown_pixelformat rgb24_request);
    vm_compute; discriminate.
Defined.

(** C9: [camera_try_fmt] is idempotent: applied to the descriptor it
    returned, it returns the same result and descriptor again. *)
Theorem try_fmt_idempotent (f : v4l2_format) :
  camera_try_fmt (snd (camera_try_fmt f)) = camera_try_fmt f.
Proof.
  unfold camera_try_fmt.
  cbn [snd pix type width height pixelformat priv].
  fold (coerce_pixelformat (pixelformat (pix f))).
  fold (coerce_pixelformat (coerce_pixelformat (pixelformat (pix f)))).
  rewrite coerce_pixelformat_idem, width_negotiated_idem,
    height_negotiated_idem.
  reflexivity.
Qed.

(** C10: [camera_s_fmt] never fails with EINVAL.  On a queue that is not
    busy it returns 0 for every descriptor, whatever its width, height and
    pixel format, and stores the coerced descriptor, whose dimensions are
    in range and whose pixel format is MJPEG or YUYV; on a busy queue it
    returns EBUSY.  There is no other outcome. *)
Theorem s_fmt_only_fails_busy (d : camera_device) (f : v4l2_format) :
  let ret := fst (fst (camera_s_fmt d f)) in
  let d' := snd (fst (camera_s_fmt d f)) in
  let f' := snd (camera_s_fmt d f) in
  ret <> - EINVAL /\
  (if vb2_is_busy (queue d)
   then ret = - EBUSY
   else ret = 0 /\ format d' = f' /\ f' = snd (camera_try_fmt f) /\
        160 <= width (pix f') <= 1280 /\ 120 <= height (pix f') <= 720 /\
        (pixelformat (pix f') = V4L2_PIX_FMT_MJPEG \/
         pixelformat (pix f') = V4L2_PIX_FMT_YUYV)).
Proof.
  cbv zeta. unfold camera_s_fmt.
  destruct (vb2_is_busy (queue d)).
  - split; [vm_compute; discriminate|reflexivity].
  - cbn [camera_try_fmt fst snd negb Z.eqb format set_format].
    split; [vm_compute; discriminate|].
    split; [reflexivity|]. split; [reflexivity|]. split; [reflexivity|].
    cbn [pix width height pixelformat].
    split; [apply (width_negotiated (width (pix f)))|].
    split; [apply (height_negotiated (height (pix f)))|].
    apply coerce_pixelformat_cases.
Qed.

Example s_fmt_odd_request :
  let f := {| type := V4L2_BUF_TYPE_VIDEO_CAPTURE;
              pix := {| width := 0; height := 4294967295; pixelformat := 0;
                        field := 0; bytesperline := 0; sizeimage := 0;
                        colorspace := 0; priv := 0 |} |} in
  let p := pix (format (snd (fst (camera_s_fmt camera_probe f)))) in
  fst (fst (camera_s_fmt camera_probe f)) = 0 /\
  width p = 160 /\ height p = 720 /\
  pixelformat p = V4L2_PIX_FMT_MJPEG /\ sizeimage p = 115200.
Proof. vm_compute. repeat split. Qed.

(** ** Buffer queue *)

(** C4: when buffers are requested ([*nplanes] is 0 on entry),
    [camera_queue_setup] succeeds and the buffer count that takes effect is
    the requested one clamped into [MIN_BUFFERS, MAX_BUFFERS] = [2, 4]: 2
    for a request below 2, 4 for a request above 4, the request itself in
    between. *)
Theorem queue_setup_clamps_count (d : camera_device) (n : Z) (sizes : list Z) :
  let '(ret, n', nplanes', sizes') := camera_queue_setup d n 0 sizes in
  ret = 0 /\
  MIN_BUFFERS = 2 /\ MAX_BUFFERS = 4 /\
  MIN_BUFFERS <= n' <= MAX_BUFFERS /\
  n' = (if n <? 2 then 2 else if 4 <? n then 4 else n) /\
  nplanes' = 1 /\
  hd 0 sizes' = sizeimage (pix (format d)).
Proof.
  unfold camera_queue_setup, MIN_BUFFERS, MAX_BUFFERS.
  cbn [Z.eqb negb hd].
  repeat split; try reflexivity;
    destruct (Z.ltb_spec n 2); try (cbn; lia);
    destruct (Z.ltb_spec 4 n); try (cbn; lia); try reflexivity.
Qed.

(** Through [vb2_ioctl_reqbufs], a request for at least one buffer on a
    queue that is not streaming allocates the clamped count; a request for
    0 buffers frees the queue and never reaches [camera_queue_setup]. *)
Lemma reqbufs_count d count :
  streaming (queue d) = false ->
  let d' := snd (vb2_ioctl_reqbufs d count) in
  if count =? 0 then num_buffers (queue d') = 0
  else fst (vb2_ioctl_reqbufs d count) = 0 /\
       num_buffers (queue d') =
       (if count <? 2 then 2 else if 4 <? count then 4 else count).
Proof.
  intros Hs. cbv zeta. unfold vb2_ioctl_reqbufs. rewrite Hs.
  destruct (Z.eqb_spec count 0) as [->|Hc]; [reflexivity|].
  unfold camera_queue_setup, MIN_BUFFERS, MAX_BUFFERS, VB2_MAX_FRAME.
  cbn [Z.eqb negb fst snd set_queue queue num_buffers].
  split; [reflexivity|].
  destruct (Z.ltb_spec (Z.min count 32) 2), (Z.ltb_spec count 2);
    try lia; try reflexivity;
    destruct (Z.ltb_spec 4 (Z.min count 32)), (Z.ltb_spec 4 count); lia.
Qed.

Lemma return_each_spec entries q s :
  return_each entries q s =
  ([], {| num_buffers := num_buffers q; plane_size := plane_size q;
          streaming := streaming q; queued_list := queued_list q;
          done_list :=
            done_list q ++ map (fun b => set_vb_state (vb b) s) entries |}).
Proof.
  revert q. induction entries as [|buf tmp IH]; intros q; cbn [return_each map].
  - rewrite app_nil_r. destruct q; reflexivity.
  - rewrite IH. cbn [vb2_buffer_done num_buffers plane_size streaming
                       queued_list done_list].
    rewrite <- app_assoc. reflexivity.
Qed.

Lemma stop_streaming_spec d :
  camera_stop_streaming d =
  {| state := CAMERA_STATE_CONNECTED;
     queue :=
       {| num_buffers := num_buffers (queue d);
          plane_size := plane_size (queue d);
          streaming := streaming (queue d);
          queued_list := queued_list (queue d);
          done_list :=
            done_list (queue d) ++
            map (fun b => set_vb_state (vb b) VB2_BUF_STATE_ERROR)
              (buf_list d) |};
     buf_list := [];
     format := format d;
     frames_received := frames_received d;
     frames_dropped := frames_dropped d;
     last_frame_time := last_frame_time d |}.
Proof.
  unfold camera_stop_streaming, camera_return_all_buffers,
    camera_stop_usb_streaming.
  rewrite return_each_spec. reflexivity.
Qed.

(** C6: after [camera_stop_streaming] (from the Streaming state as from any
    other) the device is Connected, the pending-buffer list is empty, and
    every buffer that was on it has been given back with
    [vb2_buffer_done] in the Error state, in list order, after the buffers
    already done. *)
Theorem stop_streaming_returns_all_buffers (d : camera_device) :
  let d' := camera_stop_streaming d in
  state d' = CAMERA_STATE_CONNECTED /\
  buf_list d' = [] /\
  done_list (queue d') =
    done_list (queue d) ++
    map (fun b => set_vb_state (vb b) VB2_BUF_STATE_ERROR) (buf_list d) /\
  Forall (fun b =>
            In {| vb_index := vb_index (vb b);
                  vb_state := VB2_BUF_STATE_ERROR |}
               (done_list (queue d')))
         (buf_list d) /\
  Forall (fun b => vb_state b = VB2_BUF_STATE_ERROR)
         (skipn (length (done_list (queue d))) (done_list (queue d'))).
Proof.
  cbv zeta. rewrite stop_streaming_spec.
  cbn [state buf_list queue done_list].
  split; [reflexivity|]. split; [reflexivity|]. split; [reflexivity|].
  split.
  - apply Forall_forall. intros b Hb.
    apply in_or_app. right.
    apply (in_map (fun b => set_vb_state (vb b) VB2_BUF_STATE_ERROR)).
    apply list_elem_of_In. exact Hb.
  - rewrite skipn_app, skipn_all, Nat.sub_diag. cbn [skipn app].
    apply Forall_forall. intros b Hb.
    apply list_elem_of_In, in_map_iff in Hb.
    destruct Hb as (x & <- & _). reflexivity.
Qed.

(** ** The streaming state machine *)

(** On a busy queue [camera_s_fmt] gives up before it looks at the
    descriptor. *)
Lemma s_fmt_busy d f :
  vb2_is_busy (queue d) = true -> camera_s_fmt d f = (- EBUSY, d, f).
Proof. intros H. unfold camera_s_fmt. rewrite H. reflexivity. Qed.

Lemma enqueue_all_state l d :
  state (fold_left enqueue_in_driver l d) = state d /\
  queue (fold_left enqueue_in_driver l d) = queue d.
Proof.
  revert d. induction l as [|i l IH]; intros d; cbn [fold_left].
  - split; reflexivity.
  - destruct (IH (enqueue_in_driver d i)) as [-> ->]. split; reflexivity.
Qed.

Lemma queue_cancel_inv d :
  queue_inv d ->
  let d' := vb2_queue_cancel d in
  state d' <> CAMERA_STATE_STREAMING /\
  streaming (queue d') = false /\
  num_buffers (queue d') = num_buffers (queue d).
Proof.
  intros (Hn & Hs & Hq). cbv zeta. unfold vb2_queue_cancel.
  destruct (streaming (queue d)) eqn:Hstr.
  - rewrite stop_streaming_spec. cbn. repeat split; discriminate.
  - cbn. repeat split. intros Hst. specialize (Hs Hst). discriminate.
Qed.

Lemma probe_inv : queue_inv camera_probe.
Proof. unfold queue_inv. cbn. repeat split; (lia || discriminate). Qed.

Lemma serve_inv d r : queue_inv d -> queue_inv (serve d r).
Proof.
  intros Hinv. pose proof Hinv as (Hn & Hs & Hq).
  pose proof (queue_cancel_inv d Hinv) as Hc. cbv zeta in Hc.
  destruct Hc as (Hc1 & Hc2 & Hc3).
  destruct r; cbn [serve]; try exact Hinv.
  - (* VIDIOC_S_FMT *)
    unfold camera_s_fmt. destruct (vb2_is_busy (queue d)); exact Hinv.
  - (* VIDIOC_REQBUFS *)
    unfold vb2_ioctl_reqbufs.
    destruct (streaming (queue d)) eqn:Hstr; [exact Hinv|].
    assert (Hst : state d <> CAMERA_STATE_STREAMING)
      by (intros E; specialize (Hs E); discriminate).
    set (d1 := if (count =? 0) || negb (num_buffers (queue d) =? 0)
               then vb2_queue_free (vb2_queue_cancel d) else d).
    assert (H1 : state d1 <> CAMERA_STATE_STREAMING /\
                 streaming (queue d1) = false /\
                 0 <= num_buffers (queue d1)).
    { subst d1. destruct ((count =? 0) || negb (num_buffers (queue d) =? 0)).
      - cbn [vb2_queue_free set_queue state queue num_buffers streaming].
        split; [exact Hc1|]. split; [exact Hc2|]. lia.
      - split; [exact Hst|]. split; [exact Hstr|exact Hn]. }
    destruct H1 as (H1a & H1b & H1c).
    destruct (count =? 0).
    + cbn [snd]. unfold queue_inv. rewrite H1b.
      repeat split; [exact H1c|contradiction|discriminate].
    + unfold camera_queue_setup, MIN_BUFFERS, MAX_BUFFERS.
      cbn [Z.eqb negb snd]. unfold queue_inv. cbn. rewrite H1b.
      repeat split; [|contradiction|discriminate].
      destruct (Z.ltb_spec (Z.min count VB2_MAX_FRAME) 2); [cbn; lia|].
      destruct (Z.ltb_spec 4 (Z.min count VB2_MAX_FRAME)); lia.
  - (* VIDIOC_QBUF *)
    unfold vb2_ioctl_qbuf.
    destruct ((index <? 0) || (num_buffers (queue d) <=? index));
      [exact Hinv|].
    destruct (Z_mem index (queued_list (queue d))); [exact Hinv|].
    destruct (negb (camera_buf_prepare d (plane_size (queue d)) =? 0));
      [exact Hinv|].
    destruct (streaming (queue d)) eqn:Hstr; cbn; unfold queue_inv; cbn;
      repeat split; auto; intros E; specialize (Hs E); congruence.
  - (* VIDIOC_DQBUF *)
    unfold vb2_ioctl_dqbuf.
    destruct (negb (streaming (queue d))); [exact Hinv|].
    destruct (done_list (queue d)); exact Hinv.
  - (* VIDIOC_STREAMON *)
    unfold vb2_ioctl_streamon.
    destruct (streaming (queue d)) eqn:Hstr; [exact Hinv|].
    destruct (Z.eqb_spec (num_buffers (queue d)) 0); [exact Hinv|].
    destruct (enqueue_all_state (queued_list (queue d)) d) as [_ Hqe].
    unfold camera_start_streaming, camera_init_streaming.
    cbn [Z.eqb negb snd set_queue queue]. unfold queue_inv. cbn.
    rewrite Hqe. repeat split; intros; lia.
  - (* VIDIOC_STREAMOFF *)
    cbn [vb2_ioctl_streamoff snd]. unfold queue_inv.
    rewrite Hc2, Hc3. repeat split; [exact Hn|contradiction|discriminate].
  - (* RELEASE *)
    unfold queue_inv.
    cbn [vb2_fop_release snd vb2_queue_free set_queue state queue
           num_buffers streaming].
    rewrite Hc2. repeat split; [lia|contradiction|discriminate].
Qed.

Lemma reachable_inv d : reachable d -> queue_inv d.
Proof.
  intros [rs <-].
  assert (H : forall d0, queue_inv d0 -> queue_inv (fold_left serve rs d0)).
  { induction rs as [|r rs IH]; intros d0 H0; cbn [fold_left];
      [exact H0|]. apply IH, serve_inv, H0. }
  apply H, probe_inv.
Qed.

(** C1: in every state the device can reach from [camera_probe] in which
    it is Streaming, [camera_s_fmt] returns EBUSY for every descriptor and
    leaves the device, and with it the stored format, as it was; the
    caller's descriptor is not touched either. *)
Theorem s_fmt_while_streaming_is_busy (d : camera_device) (f : v4l2_format) :
  reachable d ->
  state d = CAMERA_STATE_STREAMING ->
  camera_s_fmt d f = (- EBUSY, d, f) /\
  fst (fst (camera_s_fmt d f)) = - EBUSY /\
  format (snd (fst (camera_s_fmt d f))) = format d.
Proof.
  intros Hr Hs.
  destruct (reachable_inv d Hr) as (_ & H1 & H2).
  assert (Hb : vb2_is_busy (queue d) = true).
  { unfold vb2_is_busy. apply Z.ltb_lt. auto. }
  rewrite (s_fmt_busy d f Hb). repeat split.
Qed.

Example streaming_device_state :
  state streaming_device = CAMERA_STATE_STREAMING /\
  num_buffers (queue streaming_device) = 4 /\
  map (fun b => vb_index (vb b)) (buf_list streaming_device) = [0; 1].
Proof. vm_compute. repeat split. Qed.

Lemma s_fmt_while_streaming_witness :
  reachable streaming_device /\
  state streaming_device = CAMERA_STATE_STREAMING /\
  camera_s_fmt streaming_device yuyv_640x480 =
    (- EBUSY, streaming_device, yuyv_640x480) /\
  fst (fst (camera_s_fmt streaming_device yuyv_640x480)) = - EBUSY /\
  format (snd (fst (camera_s_fmt streaming_device yuyv_640x480))) =
    format streaming_device.
Proof.
  assert (Hr : reachable streaming_device).
  { exists [VIDIOC_REQBUFS 4; VIDIOC_QBUF 0; VIDIOC_QBUF 1; VIDIOC_STREAMON].
    reflexivity. }
  assert (Hs : state streaming_device = CAMERA_STATE_STREAMING)
    by (vm_compute; reflexivity).
  split; [exact Hr|]. split; [exact Hs|].
  exact (s_fmt_while_streaming_is_busy streaming_device yuyv_640x480 Hr Hs).
Defined.

(** ** Statistics *)

Lemma enqueue_all_counters l d :
  counters (fold_left enqueue_in_driver l d) = counters d.
Proof.
  revert d. induction l as [|i l IH]; intros d; cbn [fold_left];
    [reflexivity|]. rewrite IH. reflexivity.
Qed.






(** ** The capture engine *)

Section EngineFacts.
Import Engine.
Local Open Scope nat_scope.





Lemma start_frame_fields e :
  ready (start_frame e) = ready e /\
  image_size_bytes (start_frame e) = image_size_bytes e /\
  next_sequence (start_frame e) = next_sequence e /\
  stats (start_frame e) = stats e.
Proof.
  unfold start_frame. destruct (acquire_free (pool e)) as [[h p]|];
    repeat split.
Qed.








(** An MJPEG frame whose start and end markers both straddle a span
    boundary is assembled at exactly its length; a stream without a start
    marker gives no buffer. *)
Example mjpeg_examples :
  let a := fold_left feed_mjpeg
             [[x00; xff]; [xd8; x11; xff]; [xd9; x22]] mjpeg_assembler in
  let n := fold_left feed_mjpeg [[x00; x11]; [xd9; x22; xff]] mjpeg_assembler in
  map storage (filter (fun b => state b = Ready) (pool (eng a))) =
    [[xff; xd8; x11; xff; xd9]] /\
  map bytes_filled (filter (fun b => state b = Ready) (pool (eng a))) = [5] /\
  stats (eng a) = mk_stats 1 0 7 0 /\
  filter (fun b => state b = Ready) (pool (eng n)) = [] /\
  ready (eng n) = [] /\
  bytes_received (stats (eng n)) = 4.
Proof. vm_compute. repeat split. Qed.

Lemma acquire_free_Some p h p' :
  acquire_free p = Some (h, p') ->
  exists b, p !! h = Some b /\ state b = Free /\
    p' = <[h := {| index := index b; capacity := capacity b;
                   storage := []; bytes_filled := 0;
                   state := Filling; sequence := sequence b |}]> p.
Proof.
  unfold acquire_free.
  destruct (list_find (fun b => state b = Free) p) as [[i b]|] eqn:Hfind;
    [|discriminate].
  intros [= <- <-]. apply list_find_Some in Hfind as (Hl & Hs & _).
  exists b. repeat split; assumption.
Qed.

(** A buffer that is not [Free] is not touched by [start_frame]. *)
Lemma start_frame_keep e j bj :
  pool e !! j = Some bj -> state bj <> Free ->
  pool (start_frame e) !! j = Some bj.
Proof.
  intros Hj Hs. unfold start_frame.
  destruct (acquire_free (pool e)) as [[h p]|] eqn:Ha; [|exact Hj].
  apply acquire_free_Some in Ha as (b & Hb & Hfree & ->).
  cbn [pool set_filling set_pool].
  rewrite list_lookup_insert_ne; [exact Hj|].
  intros ->. rewrite Hb in Hj. injection Hj as ->. contradiction.
Qed.

(** Every buffer after [start_frame] is as it was, or is the fresh buffer
    now in hand. *)
Lemma start_frame_lookup e j bj :
  pool (start_frame e) !! j = Some bj ->
  pool e !! j = Some bj \/
  (filling (start_frame e) = Some j /\ state bj = Filling /\
   bytes_filled bj = 0).
Proof.
  unfold start_frame.
  destruct (acquire_free (pool e)) as [[h p]|] eqn:Ha; [|now left].
  apply acquire_free_Some in Ha as (b & Hb & Hfree & ->).
  cbn [pool filling set_filling set_pool]. intros Hj.
  destruct (decide (h = j)) as [->|Hne].
  - rewrite list_lookup_insert_eq in Hj by (eapply lookup_lt_Some; eauto).
    injection Hj as <-. right. repeat split.
  - rewrite list_lookup_insert_ne in Hj by exact Hne. now left.
Qed.

Lemma start_frame_fresh e : fresh_or_idle (start_frame e).
Proof.
  unfold fresh_or_idle, start_frame.
  destruct (acquire_free (pool e)) as [[h p]|] eqn:Ha; [|now left].
  apply acquire_free_Some in Ha as (b & Hb & Hfree & ->).
  right. eexists h, _. cbn [pool filling set_filling set_pool].
  split; [reflexivity|]. split.
  - apply list_lookup_insert_eq. eapply lookup_lt_Some; eauto.
  - split; reflexivity.
Qed.

(** A span that does not complete the frame is appended, and nothing else
    changes. *)
Lemma feed_partial e h b span :
  filling e = Some h -> pool e !! h = Some b ->
  bytes_filled b + length span < image_size_bytes e ->
  feed_yuyv e span = set_pool e (<[h := append_span b span]> (pool e)).
Proof.
  intros Hf Hp Hlt. unfold feed_yuyv. rewrite Hf. cbv zeta. rewrite Hf, Hp.
  rewrite take_ge by lia.
  replace (image_size_bytes e - bytes_filled b <? length span) with false
    by (symmetry; apply Nat.ltb_ge; lia).
  replace (bytes_filled (append_span b span) =?
           image_size_bytes (set_pool e (<[h:=append_span b span]> (pool e))))
    with false; [reflexivity|].
  symmetry. apply Nat.eqb_neq. cbn. lia.
Qed.

(** The span that completes the frame marks the buffer [Ready] and starts
    the next frame. *)
Lemma feed_complete e h b span :
  filling e = Some h -> pool e !! h = Some b -> state b = Filling ->
  image_size_bytes e <= capacity b ->
  bytes_filled b + length span = image_size_bytes e ->
  feed_yuyv e span =
  start_frame
    {| pool := <[h := {| index := index b; capacity := capacity b;
                         storage := storage b ++ span;
                         bytes_filled := image_size_bytes e;
                         state := Ready;
                         sequence := next_sequence e |}]> (pool e);
       ready := ready e ++ [h];
       filling := Some h;
       image_size_bytes := image_size_bytes e;
       next_sequence := S (next_sequence e);
       stats := {| frames_received := S (frames_received (stats e));
                   frames_dropped := frames_dropped (stats e);
                   bytes_received :=
                     bytes_received (stats e) + image_size_bytes e;
                   errors := errors (stats e) |} |}.
Proof.
  intros Hf Hp Hs Hcap Hlen. unfold feed_yuyv. rewrite Hf. cbv zeta.
  rewrite Hf, Hp. rewrite take_ge by lia.
  replace (image_size_bytes e - bytes_filled b <? length span) with false
    by (symmetry; apply Nat.ltb_ge; lia).
  assert (Hh : h < length (pool e)) by (eapply lookup_lt_Some; eauto).
  replace (bytes_filled (append_span b span) =?
           image_size_bytes (set_pool e (<[h:=append_span b span]> (pool e))))
    with true by (symmetry; apply Nat.eqb_eq; cbn; lia).
  f_equal. unfold mark_ready, bump_sequence.
  cbn [pool set_pool]. rewrite list_lookup_insert_eq by exact Hh.
  cbn [state append_span capacity bytes_filled].
  rewrite bool_decide_eq_true_2 by exact Hs.
  replace (capacity b <? bytes_filled b + length span) with false
    by (symmetry; apply Nat.ltb_ge; lia).
  cbn. rewrite list_insert_insert_eq, Hf, Hlen. reflexivity.
Qed.

Lemma one_ready_start_frame e h data seq :
  one_ready e h data seq -> completed (start_frame e) h data seq.
Proof.
  intros (Hr & (b & Hb & Hsb & Hbf & Hst & Hsq) & Huniq & Hpos).
  destruct (start_frame_fields e) as (Er & Ei & _ & _).
  split; [|apply start_frame_fresh].
  unfold one_ready. rewrite Er, Ei.
  split; [exact Hr|]. split; [|split; [|exact Hpos]].
  - exists b. split; [|auto].
    apply start_frame_keep; [exact Hb|]. rewrite Hsb. discriminate.
  - intros j bj Hj Hs.
    destruct (start_frame_lookup e j bj Hj) as [Hold|(_ & Hfill & _)].
    + eapply Huniq; eauto.
    + rewrite Hfill in Hs. discriminate.
Qed.

Lemma feed_yuyv_idle e span :
  filling e = None ->
  feed_yuyv e span =
  match filling (start_frame e) with
  | None => count_dropped (start_frame e)
  | Some _ => feed_yuyv (start_frame e) span
  end.
Proof.
  intros Hf. unfold feed_yuyv. rewrite Hf. cbv zeta.
  destruct (filling (start_frame e)) eqn:E; [|reflexivity].
  rewrite E. reflexivity.
Qed.

(** Once the frame is complete, an empty span changes nothing that
    matters. *)
Lemma completed_feed_nil_filling e h data seq h2 :
  completed e h data seq -> filling e = Some h2 ->
  completed (feed_yuyv e []) h data seq.
Proof.
  intros [(Hr & (b & Hb & Hsb & Hbf & Hst & Hsq) & Huniq & Hpos) Hfresh] Hf.
  destruct Hfresh as [Hn|(h2' & b2 & Hf2 & Hb2 & Hs2 & Hz2)];
    [congruence|].
  assert (h2' = h2) as -> by congruence.
  assert (Hne : h2 <> h).
  { intros ->. rewrite Hb in Hb2. injection Hb2 as <-. congruence. }
  assert (Hh2 : h2 < length (pool e)) by (eapply lookup_lt_Some; eauto).
  rewrite (feed_partial e h2 b2 [] Hf Hb2) by (cbn; lia).
  split; [split; [exact Hr|split; [|split; [|exact Hpos]]]|].
  - exists b. cbn [pool set_pool image_size_bytes].
    rewrite list_lookup_insert_ne by exact Hne. auto.
  - cbn [pool set_pool]. intros j bj Hj Hs.
    destruct (decide (h2 = j)) as [->|Hnj].
    + rewrite list_lookup_insert_eq in Hj by exact Hh2.
      injection Hj as <-. cbn in Hs. congruence.
    + rewrite list_lookup_insert_ne in Hj by exact Hnj. eapply Huniq; eauto.
  - right. exists h2, (append_span b2 []). cbn [pool filling set_pool].
    split; [exact Hf|]. split; [apply list_lookup_insert_eq, Hh2|].
    split; [exact Hs2|]. cbn. lia.
Qed.

Lemma completed_count_dropped e h data seq :
  completed e h data seq -> completed (count_dropped e) h data seq.
Proof. intros H. exact H. Qed.

Lemma completed_feed_nil e h data seq :
  completed e h data seq -> completed (feed_yuyv e []) h data seq.
Proof.
  intros Hc. destruct (filling e) as [h2|] eqn:Hf.
  - eapply completed_feed_nil_filling; eauto.
  - rewrite (feed_yuyv_idle e [] Hf).
    pose proof (one_ready_start_frame e h data seq (proj1 Hc)) as Hc1.
    destruct (filling (start_frame e)) as [h2|] eqn:Hf1.
    + eapply completed_feed_nil_filling; eauto.
    + apply completed_count_dropped, Hc1.
Qed.

Lemma completed_feed_all_nil spans e h data seq :
  length (concat spans) = 0 ->
  completed e h data seq ->
  completed (fold_left feed_yuyv spans e) h data seq.
Proof.
  revert e. induction spans as [|s spans IH]; intros e Hlen Hc;
    cbn [fold_left]; [exact Hc|].
  cbn [concat] in Hlen. rewrite length_app in Hlen.
  destruct s as [|x s]; [|cbn in Hlen; lia].
  apply IH; [cbn in Hlen; lia|]. apply completed_feed_nil, Hc.
Qed.

Lemma feed_yuyv_image_size e span :
  image_size_bytes (feed_yuyv e span) = image_size_bytes e.
Proof.
  unfold feed_yuyv.
  set (e1 := match filling e with Some _ => e | None => start_frame e end).
  assert (H1 : image_size_bytes e1 = image_size_bytes e).
  { subst e1. destruct (filling e); [reflexivity|apply start_frame_fields]. }
  rewrite <- H1. clearbody e1.
  destruct (filling e1) as [h|]; [|reflexivity].
  destruct (pool e1 !! h) as [b|]; [|reflexivity].
  set (b1 := append_span b _).
  set (e2 := set_pool e1 _).
  set (e3 := if _ <? length span then count_dropped e2 else e2).
  assert (H3 : image_size_bytes e3 = image_size_bytes e1)
    by (subst e3; destruct (_ <? length span); reflexivity).
  destruct (bytes_filled b1 =? image_size_bytes e3); [|exact H3].
  destruct (start_frame_fields
              (bump_sequence
                 (mark_ready e3 h (bytes_filled b1) (next_sequence e3))))
    as (_ & -> & _ & _).
  rewrite <- H3. unfold mark_ready. cbn [bump_sequence image_size_bytes].
  destruct (pool e3 !! h) as [b'|]; [|reflexivity].
  case_bool_decide; [|reflexivity].
  destruct (capacity b' <? bytes_filled b1); reflexivity.
Qed.

Lemma feed_all_image_size spans e :
  image_size_bytes (fold_left feed_yuyv spans e) = image_size_bytes e.
Proof.
  revert e. induction spans as [|s spans IH]; intros e; cbn [fold_left];
    [reflexivity|]. rewrite IH. apply feed_yuyv_image_size.
Qed.

(** Feeding the rest of a frame, in any split, to the buffer in hand. *)
Lemma feed_in_progress spans :
  forall e h data,
    in_progress e h data -> none_ready e ->
    length data < image_size_bytes e ->
    length data + length (concat spans) = image_size_bytes e ->
    completed (fold_left feed_yuyv spans e) h (data ++ concat spans)
      (next_sequence e).
Proof.
  induction spans as [|s spans IH];
    intros e h data Hin Hnone Hlt Hlen; cbn [fold_left concat] in *;
    [cbn in Hlen; lia|].
  rewrite length_app in Hlen.
  destruct Hin as (Hf & b & Hb & Hsb & Hst & Hbf & Hcap).
  destruct Hnone as (Hr & Hnr).
  assert (Hh : h < length (pool e)) by (eapply lookup_lt_Some; eauto).
  destruct (decide (length data + length s < image_size_bytes e)) as [Hp|Hp].
  - (* the frame is still incomplete after [s] *)
    rewrite (feed_partial e h b s Hf Hb) by lia.
    rewrite app_assoc.
    replace (next_sequence e) with
      (next_sequence (set_pool e (<[h:=append_span b s]> (pool e))))
      by reflexivity.
    apply IH.
    + split; [exact Hf|]. exists (append_span b s).
      cbn [pool set_pool image_size_bytes append_span state storage
             bytes_filled capacity].
      split; [apply list_lookup_insert_eq, Hh|].
      split; [exact Hsb|]. split; [now rewrite Hst|].
      split; [rewrite length_app; lia|exact Hcap].
    + split; [exact Hr|]. cbn [pool set_pool]. intros j bj Hj.
      destruct (decide (h = j)) as [->|Hnj].
      * rewrite list_lookup_insert_eq in Hj by exact Hh.
        injection Hj as <-. cbn. rewrite Hsb. discriminate.
      * rewrite list_lookup_insert_ne in Hj by exact Hnj. eapply Hnr; eauto.
    + cbn [image_size_bytes set_pool]. rewrite length_app. lia.
    + cbn [image_size_bytes set_pool]. rewrite length_app. lia.
  - (* [s] completes the frame; the spans after it are empty *)
    assert (Hs : length data + length s = image_size_bytes e) by lia.
    assert (Hrest : length (concat spans) = 0) by lia.
    rewrite (feed_complete e h b s Hf Hb Hsb Hcap) by lia.
    apply length_zero_iff_nil in Hrest as Hnil. rewrite Hnil, app_nil_r.
    apply completed_feed_all_nil; [exact Hrest|].
    apply one_ready_start_frame.
    unfold one_ready. cbn [ready pool image_size_bytes]. rewrite Hr.
    split; [reflexivity|]. split; [|split; [|lia]].
    + eexists. split; [apply list_lookup_insert_eq, Hh|].
      cbn. rewrite Hst. auto.
    + intros j bj Hj Hsj. destruct (decide (h = j)) as [->|Hnj];
        [reflexivity|].
      rewrite list_lookup_insert_ne in Hj by exact Hnj.
      exfalso. eapply Hnr; eauto.
Qed.

Lemma filter_none (l : list Buffer) :
  (forall i x, l !! i = Some x -> state x <> Ready) ->
  filter (fun b => state b = Ready) l = [].
Proof.
  induction l as [|a l IH]; intros H; [reflexivity|].
  rewrite filter_cons_False by (apply (H 0 a); reflexivity).
  apply IH. intros i x Hi. apply (H (S i) x). exact Hi.
Qed.

(** A pool with one [Ready] buffer counts one. *)
Lemma ready_count_one e h b :
  pool e !! h = Some b -> state b = Ready ->
  (forall j bj, pool e !! j = Some bj -> state bj = Ready -> j = h) ->
  ready_count e = 1.
Proof.
  intros Hb Hs Huniq. unfold ready_count.
  rewrite <- (take_drop_middle (pool e) h b Hb).
  rewrite filter_app, filter_cons_True by exact Hs.
  assert (Hh : h < length (pool e)) by (eapply lookup_lt_Some; eauto).
  assert (H1 : filter (fun b => state b = Ready) (take h (pool e)) = []).
  { apply filter_none. intros i x Hi Hx.
    apply lookup_take_Some in Hi as [Hi Hlt].
    pose proof (Huniq i x Hi Hx). lia. }
  assert (H2 : filter (fun b => state b = Ready) (drop (S h) (pool e)) = []).
  { apply filter_none. intros i x Hi Hx.
    rewrite lookup_drop in Hi.
    pose proof (Huniq _ x Hi Hx). lia. }
  rewrite H1, H2. reflexivity.
Qed.

(** C8: in YUYV mode, with an empty buffer in hand and no buffer ready,
    feeding spans whose lengths add up to [image_size_bytes], however the
    bytes are split into spans, leaves exactly one [Ready] buffer: it is
    the only entry of the ready FIFO and the only [Ready] buffer of the
    pool, its [bytes_filled] is [image_size_bytes], and it holds the bytes
    of the spans in order. *)
Theorem yuyv_any_split (e : engine) (h : nat) (spans : list (list byte)) :
  in_progress e h [] -> none_ready e ->
  0 < image_size_bytes e ->
  length (concat spans) = image_size_bytes e ->
  let e' := fold_left feed_yuyv spans e in
  ready e' = [h] /\
  ready_count e' = 1 /\
  exists b, pool e' !! h = Some b /\ state b = Ready /\
            bytes_filled b = image_size_bytes e /\
            storage b = concat spans /\
            sequence b = next_sequence e.
Proof.
  intros Hin Hnone Hpos Hlen. cbv zeta.
  pose proof (feed_in_progress spans e h [] Hin Hnone Hpos Hlen) as Hc.
  destruct Hc as [(Hr & (b & Hb & Hsb & Hbf & Hst & Hsq) & Huniq & _) _].
  split; [exact Hr|]. split; [eapply ready_count_one; eauto|].
  exists b. rewrite feed_all_image_size in Hbf. auto.
Qed.

Lemma yuyv_any_split_witness :
  in_progress four_byte_engine 0 [] /\
  none_ready four_byte_engine /\
  0 < image_size_bytes four_byte_engine /\
  length (concat four_byte_spans) = image_size_bytes four_byte_engine /\
  (let e' := fold_left feed_yuyv four_byte_spans four_byte_engine in
   ready e' = [0] /\
   ready_count e' = 1 /\
   exists b, pool e' !! 0 = Some b /\ state b = Ready /\
             bytes_filled b = image_size_bytes four_byte_engine /\
             storage b = concat four_byte_spans /\
             sequence b = next_sequence four_byte_engine).
Proof.
  assert (H1 : in_progress four_byte_engine 0 []).
  { split; [reflexivity|]. eexists. split; [reflexivity|].
    vm_compute. repeat split. apply le_n. }
  assert (H2 : none_ready four_byte_engine).
  { split; [reflexivity|]. intros [|[|j]] bj Hj; vm_compute in Hj;
      [injection Hj as <-; discriminate
      |injection Hj as <-; discriminate
      |discriminate]. }
  assert (H3 : 0 < image_size_bytes four_byte_engine)
    by (vm_compute; lia).
  assert (H4 : length (concat four_byte_spans) =
               image_size_bytes four_byte_engine) by reflexivity.
  split; [exact H1|]. split; [exact H2|]. split; [exact H3|].
  split; [exact H4|].
  exact (yuyv_any_split four_byte_engine 0 four_byte_spans H1 H2 H3 H4).
Defined.

(** The same four bytes in one span, in single bytes, and in the split
    above give the same engine state. *)
Example yuyv_split_examples :
  fold_left feed_yuyv [[x01; x02; x03; x04]] four_byte_engine =
  fold_left feed_yuyv four_byte_spans four_byte_engine /\
  fold_left feed_yuyv [[x01]; [x02]; [x03]; [x04]] four_byte_engine =
  fold_left feed_yuyv four_byte_spans four_byte_engine /\
  map bytes_filled (pool (fold_left feed_yuyv four_byte_spans four_byte_engine))
  = [4; 0] /\
  map state (pool (fold_left feed_yuyv four_byte_spans four_byte_engine))
  = [Ready; Filling].
Proof. vm_compute. repeat split. Qed.

End EngineFacts.



(** * Further properties of the driver *)

(** ** Format enumeration and the advertised frame sizes *)

(** X1: for an index below 2, [camera_enum_fmt] returns 0 and the table
    entry at that index, which carries the same index and a pixel format
    that is MJPEG or YUYV; for any other index it returns EINVAL and leaves
    the caller's descriptor as it was. *)
Theorem enum_fmt_by_index (f : v4l2_fmtdesc) :
  0 <= fmtdesc_index f ->
  let '(ret, f') := camera_enum_fmt f in
  if fmtdesc_index f <? 2
  then ret = 0 /\ In f' formats /\
       fmtdesc_index f' = fmtdesc_index f /\
       fmtdesc_type f' = V4L2_BUF_TYPE_VIDEO_CAPTURE /\
       (fmtdesc_pixelformat f' = V4L2_PIX_FMT_MJPEG \/
        fmtdesc_pixelformat f' = V4L2_PIX_FMT_YUYV)
  else ret = - EINVAL /\ f' = f.
Proof.
  intros H0. unfold camera_enum_fmt, ARRAY_SIZE.
  change (Z.of_nat (length formats)) with 2.
  destruct (Z.leb_spec 2 (fmtdesc_index f)) as [Hge|Hlt];
    destruct (Z.ltb_spec (fmtdesc_index f) 2) as [Hlt'|Hge']; try lia.
  - cbv beta iota. split; reflexivity.
  - cbv beta iota.
    assert (Hi : fmtdesc_index f = 0 \/ fmtdesc_index f = 1) by lia.
    destruct Hi as [-> | ->]; cbn; repeat split; auto.
Qed.

Lemma enum_fmt_by_index_witness :
  0 <= 1 /\
  (let '(ret, f') :=
     camera_enum_fmt (mk_fmtdesc 1 0 0 String.EmptyString 0) in
   if 1 <? 2
   then ret = 0 /\ In f' formats /\
        fmtdesc_index f' = 1 /\
        fmtdesc_type f' = V4L2_BUF_TYPE_VIDEO_CAPTURE /\
        (fmtdesc_pixelformat f' = V4L2_PIX_FMT_MJPEG \/
         fmtdesc_pixelformat f' = V4L2_PIX_FMT_YUYV)
   else ret = - EINVAL /\ f' = mk_fmtdesc 1 0 0 String.EmptyString 0).
Proof.
  split; [lia|].
  apply (enum_fmt_by_index (mk_fmtdesc 1 0 0 String.EmptyString 0)).
  cbn. lia.
Defined.

(** X2: the enumeration loop of the test program, started at index 0 with
    room for at least three passes, stops after exactly the two formats of
    the table, MJPEG then YUYV, whatever else the caller's descriptor
    held. *)
Theorem enumerate_formats_all (fuel : nat) (f : v4l2_fmtdesc) :
  fmtdesc_index f = 0 -> (3 <= fuel)%nat ->
  enumerate_formats fuel f = formats /\
  map fmtdesc_pixelformat (enumerate_formats fuel f) =
    [V4L2_PIX_FMT_MJPEG; V4L2_PIX_FMT_YUYV].
Proof.
  intros Hi Hf. destruct f as [i t fl de pf]. cbn in Hi. subst i.
  destruct fuel as [|[|[|n]]]; try lia.
  split; reflexivity.
Qed.

Lemma enumerate_formats_all_witness :
  fmtdesc_index (mk_fmtdesc 0 1 0 String.EmptyString 0) = 0 /\
  (3 <= 5)%nat /\
  enumerate_formats 5 (mk_fmtdesc 0 1 0 String.EmptyString 0) = formats /\
  map fmtdesc_pixelformat
    (enumerate_formats 5 (mk_fmtdesc 0 1 0 String.EmptyString 0)) =
    [V4L2_PIX_FMT_MJPEG; V4L2_PIX_FMT_YUYV].
Proof.
  split; [reflexivity|]. split; [lia|].
  apply (enumerate_formats_all 5 (mk_fmtdesc 0 1 0 String.EmptyString 0));
    [reflexivity|lia].
Defined.

(** X3: [camera_try_fmt] keeps the requested pixel format exactly when
    [camera_enum_fmt] enumerates it: the formats the driver advertises are
    the formats it accepts without coercion, and no others. *)
Theorem try_fmt_keeps_enumerated (f : v4l2_format) :
  pixelformat (pix (snd (camera_try_fmt f))) = pixelformat (pix f) <->
  exists e, In e formats /\ fmtdesc_pixelformat e = pixelformat (pix f).
Proof.
  rewrite try_fmt_pixelformat. unfold coerce_pixelformat. split.
  - intros H.
    destruct (Z.eqb_spec (pixelformat (pix f)) V4L2_PIX_FMT_MJPEG) as [E|E].
    + exists (nth 0 formats (mk_fmtdesc 0 0 0 String.EmptyString 0)).
      split; [left; reflexivity|]. rewrite E. reflexivity.
    + destruct (Z.eqb_spec (pixelformat (pix f)) V4L2_PIX_FMT_YUYV) as [E'|E'].
      * exists (nth 1 formats (mk_fmtdesc 0 0 0 String.EmptyString 0)).
        split; [right; left; reflexivity|]. rewrite E'. reflexivity.
      * cbn [negb andb] in H. congruence.
  - intros (e & [<-|[<-|[]]] & He); cbn in He; rewrite <- He; reflexivity.
Qed.

(** X4: every entry of the frame-size table is accepted as it stands:
    [camera_try_fmt] on its width, height and pixel format returns all
    three unchanged; and its pixel format is one [camera_enum_fmt]
    enumerates. *)
Theorem frame_sizes_accepted :
  Forall
    (fun s =>
       let p := pix (snd (camera_try_fmt
                            (request_format (discrete_width s)
                               (discrete_height s)
                               (frmsize_pixel_format s)))) in
       width p = discrete_width s /\ height p = discrete_height s /\
       pixelformat p = frmsize_pixel_format s /\
       In (frmsize_pixel_format s) (map fmtdesc_pixelformat formats))
    frame_sizes.
Proof.
  unfold frame_sizes. repeat apply Forall_cons_2; try apply Forall_nil_2;
    vm_compute; repeat split; auto.
Qed.

(** ** Setting and getting the format *)

Lemma try_fmt_fixpoint f : negotiated (snd (camera_try_fmt f)).
Proof.
  unfold negotiated, camera_try_fmt.
  cbn [snd pix type width height pixelformat priv].
  fold (coerce_pixelformat (pixelformat (pix f))).
  fold (coerce_pixelformat (coerce_pixelformat (pixelformat (pix f)))).
  rewrite coerce_pixelformat_idem, width_negotiated_idem,
    height_negotiated_idem.
  reflexivity.
Qed.

(** X5: [camera_g_fmt] reports what [camera_s_fmt] stored: after a
    successful [camera_s_fmt] it returns the very descriptor
    [camera_s_fmt] handed back to the caller, and after a refused one it
    returns what it returned before. *)
Theorem g_fmt_after_s_fmt (d : camera_device) (f : v4l2_format) :
  let ret := fst (fst (camera_s_fmt d f)) in
  let d' := snd (fst (camera_s_fmt d f)) in
  let f' := snd (camera_s_fmt d f) in
  camera_g_fmt d' = (0, if ret =? 0 then f' else snd (camera_g_fmt d)).
Proof.
  cbv zeta. unfold camera_s_fmt, camera_g_fmt.
  destruct (vb2_is_busy (queue d)); reflexivity.
Qed.

(** X6: once a format has been set, setting the format the device reports
    changes nothing: [camera_s_fmt] on the stored descriptor returns 0,
    the same device and the same descriptor. *)
Theorem s_fmt_of_current_format (d : camera_device) (f : v4l2_format) :
  vb2_is_busy (queue d) = false ->
  let d' := snd (fst (camera_s_fmt d f)) in
  camera_s_fmt d' (snd (camera_g_fmt d')) = (0, d', snd (camera_g_fmt d')).
Proof.
  intros Hb. cbv zeta. unfold camera_s_fmt at 2 3 4. rewrite Hb.
  cbn [camera_try_fmt fst snd negb Z.eqb camera_g_fmt format set_format].
  unfold camera_s_fmt. cbn [queue set_format]. rewrite Hb.
  pose proof (try_fmt_fixpoint f) as Hfix. unfold negotiated in Hfix.
  cbn [camera_try_fmt snd] in Hfix. rewrite Hfix.
  reflexivity.
Qed.

Lemma s_fmt_of_current_format_witness :
  vb2_is_busy (queue camera_probe) = false /\
  (let d' := snd (fst (camera_s_fmt camera_probe rgb24_request)) in
   camera_s_fmt d' (snd (camera_g_fmt d')) = (0, d', snd (camera_g_fmt d'))).
Proof.
  split; [reflexivity|].
  apply (s_fmt_of_current_format camera_probe rgb24_request). reflexivity.
Defined.

Lemma try_fmt_sizes f :
  let p := pix (snd (camera_try_fmt f)) in
  sizeimage p =
    width p * height p *
    (if pixelformat p =? V4L2_PIX_FMT_YUYV then 2 else 1) /\
  bytesperline p =
    (if pixelformat p =? V4L2_PIX_FMT_YUYV then width p * 2 else 0).
Proof.
  cbv zeta.
  destruct (width_negotiated (width (pix f))) as (Hw & _ & _).
  destruct (height_negotiated (height (pix f))) as (Hh & _ & _).
  unfold camera_try_fmt.
  cbn [snd pix width height pixelformat bytesperline sizeimage].
  set (w := ALIGN (clamp (width (pix f)) 160 1280) 16) in *.
  set (h := ALIGN (clamp (height (pix f)) 120 720) 2) in *.
  destruct (_ =? V4L2_PIX_FMT_YUYV).
  - rewrite (u32_small (w * 2)) by lia. rewrite u32_small by nia.
    split; [lia|reflexivity].
  - rewrite u32_small by nia. split; [lia|reflexivity].
Qed.

(** X7: the image size [camera_try_fmt] computes is never below
    160 * 120 = 19200 bytes and never above CAMERA_MAX_FRAME_SIZE
    (1280 * 720 * 2); a line is at most 2560 bytes; and whenever
    [bytesperline] is not 0 the image size is [bytesperline * height]. *)
Theorem try_fmt_size_bounds (f : v4l2_format) :
  let p := pix (snd (camera_try_fmt f)) in
  19200 <= sizeimage p <= CAMERA_MAX_FRAME_SIZE /\
  0 <= bytesperline p <= 2560 /\
  (bytesperline p = 0 \/ sizeimage p = bytesperline p * height p).
Proof.
  cbv zeta. destruct (try_fmt_sizes f) as [Hs Hb]. cbv zeta in Hs, Hb.
  rewrite Hs, Hb. unfold CAMERA_MAX_FRAME_SIZE.
  change (width (pix (snd (camera_try_fmt f))))
    with (ALIGN (clamp (width (pix f)) 160 1280) 16).
  change (height (pix (snd (camera_try_fmt f))))
    with (ALIGN (clamp (height (pix f)) 120 720) 2).
  destruct (width_negotiated (width (pix f))) as (Hw & _ & _).
  destruct (height_negotiated (height (pix f))) as (Hh & _ & _).
  set (w := ALIGN (clamp (width (pix f)) 160 1280) 16) in *.
  set (h := ALIGN (clamp (height (pix f)) 120 720) 2) in *.
  destruct (_ =? V4L2_PIX_FMT_YUYV).
  - split; [nia|]. split; [lia|]. right. lia.
  - split; [nia|]. split; [lia|]. now left.
Qed.

(** ** The pending-buffer list *)

Lemma buf_queue_all bufs d :
  fold_left camera_buf_queue bufs d = set_buf_list d (buf_list d ++ bufs).
Proof.
  revert d. induction bufs as [|b bufs IH]; intros d; cbn [fold_left].
  - rewrite app_nil_r. destruct d; reflexivity.
  - rewrite IH. unfold camera_buf_queue. cbn [buf_list set_buf_list].
    rewrite <- app_assoc. reflexivity.
Qed.

(** X8: buffers handed to [camera_buf_queue] are given back by
    [camera_return_all_buffers] in the order they were queued, after the
    buffers that were already pending, each exactly once and in the state
    asked for; the pending list is empty afterwards and no buffer is
    lost. *)
Theorem queued_buffers_returned_in_order
    (d : camera_device) (bufs : list camera_buffer) (s : vb2_buffer_state) :
  let d1 := fold_left camera_buf_queue bufs d in
  let d2 := camera_return_all_buffers d1 s in
  buf_list d1 = buf_list d ++ bufs /\
  buf_list d2 = [] /\
  done_list (queue d2) =
    done_list (queue d) ++
    map (fun b => set_vb_state (vb b) s) (buf_list d ++ bufs) /\
  length (done_list (queue d2)) =
    (length (done_list (queue d)) + length (buf_list d) + length bufs)%nat /\
  map vb_index (skipn (length (done_list (queue d))) (done_list (queue d2))) =
    map (fun b => vb_index (vb b)) (buf_list d ++ bufs).
Proof.
  cbv zeta. rewrite buf_queue_all. unfold camera_return_all_buffers.
  cbn [buf_list queue set_buf_list]. rewrite return_each_spec.
  cbn [set_queue set_buf_list buf_list queue done_list].
  split; [reflexivity|]. split; [reflexivity|]. split; [reflexivity|].
  split.
  - rewrite !length_app, length_map, length_app. lia.
  - rewrite skipn_app, skipn_all, Nat.sub_diag. cbn [app].
    rewrite drop_0, map_map. reflexivity.
Qed.

(** X9: stopping is idempotent: a second [camera_stop_streaming] changes
    nothing, since the first one left no buffer pending. *)
Theorem stop_streaming_idempotent (d : camera_device) :
  camera_stop_streaming (camera_stop_streaming d) = camera_stop_streaming d.
Proof.
  rewrite (stop_streaming_spec (camera_stop_streaming d)).
  rewrite (stop_streaming_spec d).
  cbn [queue buf_list format frames_received frames_dropped last_frame_time
         num_buffers plane_size streaming queued_list done_list map].
  rewrite app_nil_r. reflexivity.
Qed.

(** ** Probe and disconnect *)

Lemma probe_result o :
  camera_probe_intf o unbound =
  if all_succeed o then (0, bound) else (first_failure o, unbound).
Proof.
  destruct o as [kz r1 r2 va r3].
  unfold camera_probe_intf, all_succeed, first_failure,
    camera_init_vb2_queue, camera_create_video_device.
  cbn [kzalloc_ok v4l2_device_register_ret vb2_queue_init_ret
         video_device_alloc_ok video_register_device_ret].
  destruct kz; cbn [negb andb]; [|reflexivity].
  destruct (r1 =? 0) eqn:E1; cbn [negb andb]; [|reflexivity].
  destruct (r2 =? 0) eqn:E2; cbn [negb andb]; [|reflexivity].
  destruct va; cbn [negb andb]; [|reflexivity].
  destruct (r3 =? 0) eqn:E3; cbn [negb andb]; rewrite ?E3; reflexivity.
Qed.

Lemma first_failure_nonzero o : all_succeed o = false -> first_failure o <> 0.
Proof.
  destruct o as [kz r1 r2 va r3]. unfold all_succeed, first_failure.
  cbn [kzalloc_ok v4l2_device_register_ret vb2_queue_init_ret
         video_device_alloc_ok video_register_device_ret].
  destruct kz; cbn [negb andb]; [|intros _; vm_compute; discriminate].
  destruct (Z.eqb_spec r1 0); cbn [negb andb]; [|auto].
  destruct (Z.eqb_spec r2 0); cbn [negb andb]; [|auto].
  destruct va; cbn [negb andb]; [|intros _; vm_compute; discriminate].
  destruct (Z.eqb_spec r3 0); [discriminate|auto].
Qed.

(** X10: on an interface nothing is bound to, [camera_probe] returns 0
    exactly when every kernel call succeeds, and then holds the device of
    the initial state, registered and set as interface data; otherwise it
    returns the code of the first call that failed (ENOMEM for an
    allocation), which is not 0, and leaves nothing allocated or
    registered. *)
Theorem probe_all_or_nothing (o : probe_outcome) :
  camera_probe_intf o unbound =
    (if all_succeed o then (0, bound) else (first_failure o, unbound)) /\
  (fst (camera_probe_intf o unbound) = 0 <-> all_succeed o = true).
Proof.
  split; [apply probe_result|]. rewrite probe_result.
  destruct (all_succeed o) eqn:E; cbn [fst].
  - split; reflexivity.
  - split; [|discriminate]. intros H.
    exfalso. exact (first_failure_nonzero o E H).
Qed.

(** X11: [camera_disconnect] undoes [camera_probe]: whatever the kernel
    calls of the probe returned, disconnecting afterwards leaves nothing
    allocated or registered; on an interface without interface data it
    does nothing; and it is idempotent. *)
Theorem disconnect_releases_everything :
  (forall o : probe_outcome,
     camera_disconnect (snd (camera_probe_intf o unbound)) = unbound) /\
  (forall i : usb_interface, intfdata i = false -> camera_disconnect i = i) /\
  (forall i : usb_interface,
     camera_disconnect (camera_disconnect i) = camera_disconnect i).
Proof.
  split; [|split].
  - intros o. rewrite probe_result. destruct (all_succeed o); reflexivity.
  - intros i Hi. unfold camera_disconnect, usb_get_intfdata. rewrite Hi.
    reflexivity.
  - intros i. unfold camera_disconnect at 2 3, usb_get_intfdata.
    destruct (intfdata i) eqn:Hi.
    + destruct (intf_dev i) eqn:Hd; [reflexivity|].
      unfold camera_disconnect, usb_get_intfdata. rewrite Hi, Hd. reflexivity.
    + unfold camera_disconnect, usb_get_intfdata. rewrite Hi. reflexivity.
Qed.

(** ** What every request keeps true *)

Lemma enqueue_all l d :
  fold_left enqueue_in_driver l d =
  set_buf_list d (buf_list d ++ map active_buffer l).
Proof.
  revert d. induction l as [|i l IH]; intros d; cbn [fold_left map].
  - rewrite app_nil_r. destruct d; reflexivity.
  - rewrite IH. unfold enqueue_in_driver, camera_buf_queue.
    cbn [buf_list set_buf_list]. rewrite <- app_assoc. reflexivity.
Qed.

Lemma Z_mem_false x l : Z_mem x l = false -> ~ In x l.
Proof.
  unfold Z_mem. intros H Hin.
  assert (existsb (Z.eqb x) l = true); [|congruence].
  apply existsb_exists. exists x. split; [exact Hin|apply Z.eqb_refl].
Qed.

Lemma Z_mem_true x l : Z_mem x l = true -> In x l.
Proof.
  unfold Z_mem. intros H. apply existsb_exists in H as (y & Hy & E).
  apply Z.eqb_eq in E. subst y. exact Hy.
Qed.

Lemma probe_driver_inv : driver_inv camera_probe.
Proof.
  unfold driver_inv. cbn.
  repeat split; auto using NoDup_nil_2; try lia.
Qed.

Lemma serve_driver_inv d r : driver_inv d -> driver_inv (serve d r).
Proof.
  intros Hinv. pose proof Hinv as (Hf & Hp & Hn & Hs & Hnd & Hrg & Hdl & Hbl & Hc).
  cbv zeta in *.
  destruct r; cbn [serve]; try exact Hinv.
  - (* VIDIOC_S_FMT *)
    unfold camera_s_fmt, vb2_is_busy.
    destruct (Z.ltb_spec 0 (num_buffers (queue d))) as [Hb|Hb]; [exact Hinv|].
    cbn [camera_try_fmt fst snd negb Z.eqb].
    unfold driver_inv. cbn [queue set_format format state buf_list counters
                              frames_received frames_dropped].
    split; [right; apply (try_fmt_fixpoint f)|].
    split; [intros; lia|]. repeat split; assumption.
  - (* VIDIOC_REQBUFS *)
    unfold vb2_ioctl_reqbufs.
    destruct (streaming (queue d)) eqn:Hstr; [exact Hinv|].
    assert (Hql : (count =? 0) || negb (num_buffers (queue d) =? 0) = false ->
                  queued_list (queue d) = []).
    { intros E. apply orb_false_elim in E as [_ E].
      apply negb_false_iff, Z.eqb_eq in E. rewrite E in Hrg.
      destruct (queued_list (queue d)) as [|i l]; [reflexivity|].
      apply Forall_cons_1 in Hrg as [Hi _]. lia. }
    unfold vb2_queue_free, vb2_queue_cancel. rewrite Hstr.
    destruct ((count =? 0) || negb (num_buffers (queue d) =? 0)) eqn:Ec.
    + destruct (count =? 0).
      * unfold driver_inv. cbn. rewrite Hbl.
        repeat split; auto using NoDup_nil_2; try lia.
      * unfold camera_queue_setup, MIN_BUFFERS, MAX_BUFFERS.
        cbn [Z.eqb negb snd fst hd]. unfold driver_inv. cbn. rewrite Hbl.
        repeat split; auto using NoDup_nil_2.
        right. unfold MIN_BUFFERS, MAX_BUFFERS.
        destruct (Z.ltb_spec (Z.min count VB2_MAX_FRAME) 2); [cbn; lia|].
        destruct (Z.ltb_spec 4 (Z.min count VB2_MAX_FRAME)); lia.
    + specialize (Hql eq_refl).
      apply orb_false_elim in Ec as [Ec _]. rewrite Ec.
      unfold camera_queue_setup, MIN_BUFFERS, MAX_BUFFERS.
      cbn [Z.eqb negb snd fst hd]. unfold driver_inv. cbn.
      rewrite ?Hstr, ?Hql, ?Hdl, ?Hbl.
      repeat split; auto using NoDup_nil_2.
      right. unfold MIN_BUFFERS, MAX_BUFFERS.
      destruct (Z.ltb_spec (Z.min count VB2_MAX_FRAME) 2); [cbn; lia|].
      destruct (Z.ltb_spec 4 (Z.min count VB2_MAX_FRAME)); lia.
  - (* VIDIOC_QBUF *)
    unfold vb2_ioctl_qbuf.
    destruct ((index <? 0) || (num_buffers (queue d) <=? index)) eqn:Er;
      [exact Hinv|].
    destruct (Z_mem index (queued_list (queue d))) eqn:Em; [exact Hinv|].
    destruct (negb (camera_buf_prepare d (plane_size (queue d)) =? 0));
      [exact Hinv|].
    apply orb_false_elim in Er as [Er1 Er2].
    apply Z.ltb_ge in Er1. apply Z.leb_gt in Er2.
    apply Z_mem_false in Em.
    assert (Hnd' : NoDup (queued_list (queue d) ++ [index])).
    { apply NoDup_app. split; [exact Hnd|]. split.
      - intros x Hx Hx'. apply list_elem_of_In in Hx, Hx'.
        destruct Hx' as [<-|[]]. contradiction.
      - apply NoDup_singleton. }
    assert (Hrg' : Forall (fun i => 0 <= i < num_buffers (queue d))
                     (queued_list (queue d) ++ [index])).
    { apply Forall_app. split; [exact Hrg|]. apply Forall_singleton. lia. }
    destruct (streaming (queue d)) eqn:Hstr; cbn [snd];
      unfold driver_inv, enqueue_in_driver, camera_buf_queue;
      cbn [queue set_queue set_buf_list format state buf_list counters
             frames_received frames_dropped num_buffers plane_size streaming
             queued_list done_list];
      rewrite ?Hstr in *.
    + rewrite Hbl, map_app. repeat split; assumption.
    + repeat split; assumption.
  - (* VIDIOC_DQBUF *)
    unfold vb2_ioctl_dqbuf. rewrite Hdl.
    destruct (negb (streaming (queue d))); exact Hinv.
  - (* VIDIOC_STREAMON *)
    unfold vb2_ioctl_streamon.
    destruct (streaming (queue d)) eqn:Hstr; [exact Hinv|].
    destruct (Z.eqb_spec (num_buffers (queue d)) 0); [exact Hinv|].
    rewrite enqueue_all, Hbl.
    unfold camera_start_streaming, camera_init_streaming.
    cbn [Z.eqb negb snd]. unfold driver_inv.
    cbn [queue set_queue set_buf_list format state buf_list counters
           frames_received frames_dropped num_buffers plane_size streaming
           queued_list done_list app].
    repeat split; assumption.
  - (* VIDIOC_STREAMOFF *)
    cbn [vb2_ioctl_streamoff snd]. unfold vb2_queue_cancel.
    destruct (streaming (queue d)) eqn:Hstr.
    + rewrite stop_streaming_spec. unfold driver_inv. cbn.
      repeat split; auto using NoDup_nil_2.
    + unfold driver_inv. cbn. rewrite Hbl.
      repeat split; auto using NoDup_nil_2.
  - (* RELEASE *)
    cbn [vb2_fop_release snd]. unfold vb2_queue_free, vb2_queue_cancel.
    destruct (streaming (queue d)) eqn:Hstr.
    + rewrite stop_streaming_spec. unfold driver_inv. cbn.
      repeat split; auto using NoDup_nil_2; try lia.
    + unfold driver_inv. cbn. rewrite Hbl.
      repeat split; auto using NoDup_nil_2; try lia.
Qed.

Lemma reachable_driver_inv d : reachable d -> driver_inv d.
Proof.
  intros [rs <-].
  assert (H : forall d0, driver_inv d0 -> driver_inv (fold_left serve rs d0)).
  { induction rs as [|r rs IH]; intros d0 H0; cbn [fold_left];
      [exact H0|]. apply IH, serve_driver_inv, H0. }
  apply H, probe_driver_inv.
Qed.

Lemma negotiated_valid f :
  negotiated f ->
  let p := pix f in
  (160 <= width p <= 1280 /\ width p mod 16 = 0) /\
  (120 <= height p <= 720 /\ height p mod 2 = 0) /\
  (pixelformat p = V4L2_PIX_FMT_MJPEG \/ pixelformat p = V4L2_PIX_FMT_YUYV) /\
  19200 <= sizeimage p <= CAMERA_MAX_FRAME_SIZE.
Proof.
  unfold negotiated. intros H. cbv zeta.
  assert (E : f = snd (camera_try_fmt f)) by (rewrite H; reflexivity).
  destruct (width_negotiated (width (pix f))) as (Hw & Hwm & _).
  destruct (height_negotiated (height (pix f))) as (Hh & Hhm & _).
  pose proof (coerce_pixelformat_cases (pixelformat (pix f))) as Hpf.
  destruct (try_fmt_sizes f) as [Hs _]. cbv zeta in Hs.
  change (ALIGN (clamp (width (pix f)) 160 1280) 16)
    with (width (pix (snd (camera_try_fmt f)))) in Hw, Hwm.
  change (ALIGN (clamp (height (pix f)) 120 720) 2)
    with (height (pix (snd (camera_try_fmt f)))) in Hh, Hhm.
  rewrite <- try_fmt_pixelformat in Hpf.
  rewrite <- E in Hw, Hwm, Hh, Hhm, Hpf, Hs.
  split; [split; assumption|]. split; [split; assumption|].
  split; [exact Hpf|]. rewrite Hs. unfold CAMERA_MAX_FRAME_SIZE.
  destruct (_ =? V4L2_PIX_FMT_YUYV); nia.
Qed.

(** X12: in every state the device can reach, the stored format is valid:
    the width is a multiple of 16 in [160,1280], the height is even and in
    [120,720], the pixel format is MJPEG or YUYV; and the stored image
    size is either the 0 that [camera_probe] leaves or a size between
    19200 and CAMERA_MAX_FRAME_SIZE. *)
Theorem reachable_format_valid (d : camera_device) :
  reachable d ->
  let p := pix (format d) in
  (160 <= width p <= 1280 /\ width p mod 16 = 0) /\
  (120 <= height p <= 720 /\ height p mod 2 = 0) /\
  (pixelformat p = V4L2_PIX_FMT_MJPEG \/ pixelformat p = V4L2_PIX_FMT_YUYV) /\
  (sizeimage p = 0 \/ 19200 <= sizeimage p <= CAMERA_MAX_FRAME_SIZE).
Proof.
  intros Hr. cbv zeta.
  destruct (reachable_driver_inv d Hr) as ([Hd|Hn] & _).
  - rewrite Hd. vm_compute.
    repeat split; try discriminate; auto.
  - destruct (negotiated_valid _ Hn) as (Hw & Hh & Hp & Hs).
    split; [exact Hw|]. split; [exact Hh|]. split; [exact Hp|].
    right. exact Hs.
Qed.

Lemma reachable_format_valid_witness :
  reachable streaming_device /\
  (let p := pix (format streaming_device) in
   (160 <= width p <= 1280 /\ width p mod 16 = 0) /\
   (120 <= height p <= 720 /\ height p mod 2 = 0) /\
   (pixelformat p = V4L2_PIX_FMT_MJPEG \/
    pixelformat p = V4L2_PIX_FMT_YUYV) /\
   (sizeimage p = 0 \/ 19200 <= sizeimage p <= CAMERA_MAX_FRAME_SIZE)).
Proof.
  assert (Hr : reachable streaming_device).
  { exists [VIDIOC_REQBUFS 4; VIDIOC_QBUF 0; VIDIOC_QBUF 1; VIDIOC_STREAMON].
    reflexivity. }
  split; [exact Hr|]. exact (reachable_format_valid streaming_device Hr).
Defined.

(** X13: while buffers are allocated their plane size equals the image
    size of the stored format, so [camera_buf_prepare] never finds a
    buffer too small: queueing an allocated buffer that is not queued
    already returns 0, and while streaming the buffer goes straight to the
    tail of the driver's pending list. *)
Theorem qbuf_never_too_small (d : camera_device) (index : Z) :
  reachable d ->
  0 <= index < num_buffers (queue d) ->
  Z_mem index (queued_list (queue d)) = false ->
  plane_size (queue d) = sizeimage (pix (format d)) /\
  camera_buf_prepare d (plane_size (queue d)) = 0 /\
  fst (vb2_ioctl_qbuf d index) = 0 /\
  buf_list (snd (vb2_ioctl_qbuf d index)) =
    (if streaming (queue d) then buf_list d ++ [active_buffer index]
     else buf_list d).
Proof.
  intros Hr Hi Hm.
  destruct (reachable_driver_inv d Hr) as (_ & Hp & _).
  cbv zeta in Hp. specialize (Hp ltac:(lia)).
  assert (Hbp : camera_buf_prepare d (plane_size (queue d)) = 0).
  { unfold camera_buf_prepare. rewrite Hp, Z.ltb_irrefl. reflexivity. }
  split; [exact Hp|]. split; [exact Hbp|].
  unfold vb2_ioctl_qbuf. rewrite Hm, Hbp.
  replace ((index <? 0) || (num_buffers (queue d) <=? index)) with false.
  - cbn [Z.eqb negb]. destruct (streaming (queue d)); split; reflexivity.
  - symmetry. apply orb_false_intro; [apply Z.ltb_ge|apply Z.leb_gt]; lia.
Qed.

Lemma qbuf_never_too_small_witness :
  reachable streaming_device /\
  0 <= 2 < num_buffers (queue streaming_device) /\
  Z_mem 2 (queued_list (queue streaming_device)) = false /\
  plane_size (queue streaming_device) =
    sizeimage (pix (format streaming_device)) /\
  camera_buf_prepare streaming_device (plane_size (queue streaming_device))
    = 0 /\
  fst (vb2_ioctl_qbuf streaming_device 2) = 0 /\
  buf_list (snd (vb2_ioctl_qbuf streaming_device 2)) =
    (if streaming (queue streaming_device)
     then buf_list streaming_device ++ [active_buffer 2]
     else buf_list streaming_device).
Proof.
  assert (Hr : reachable streaming_device).
  { exists [VIDIOC_REQBUFS 4; VIDIOC_QBUF 0; VIDIOC_QBUF 1; VIDIOC_STREAMON].
    reflexivity. }
  assert (Hi : 0 <= 2 < num_buffers (queue streaming_device))
    by (vm_compute; split; [discriminate|reflexivity]).
  assert (Hm : Z_mem 2 (queued_list (queue streaming_device)) = false)
    by reflexivity.
  split; [exact Hr|]. split; [exact Hi|]. split; [exact Hm|].
  exact (qbuf_never_too_small streaming_device 2 Hr Hi Hm).
Defined.

Lemma queued_length (l : list Z) (n : Z) :
  NoDup l -> Forall (fun i => 0 <= i < n) l -> Z.of_nat (length l) <= Z.max 0 n.
Proof.
  intros Hnd Hrg.
  assert (Hs : l ⊆+ seqZ 0 n).
  { apply NoDup_submseteq; [exact Hnd|]. intros x Hx.
    apply elem_of_seqZ. rewrite Forall_forall in Hrg. specialize (Hrg x Hx).
    lia. }
  apply submseteq_length in Hs. rewrite length_seqZ in Hs. lia.
Qed.

(** X14: the device never has more than MAX_BUFFERS buffers: in every
    reachable state the number of allocated buffers is 0 or between 2 and
    4, and the driver's pending list is no longer than that. *)
Theorem reachable_buffer_count (d : camera_device) :
  reachable d ->
  (num_buffers (queue d) = 0 \/ 2 <= num_buffers (queue d) <= 4) /\
  Z.of_nat (length (buf_list d)) <= num_buffers (queue d) /\
  Z.of_nat (length (buf_list d)) <= MAX_BUFFERS.
Proof.
  intros Hr.
  destruct (reachable_driver_inv d Hr)
    as (_ & _ & Hn & _ & Hnd & Hrg & _ & Hbl & _). cbv zeta in *.
  unfold MIN_BUFFERS, MAX_BUFFERS in *.
  pose proof (queued_length _ _ Hnd Hrg) as Hlen.
  assert (Hl : Z.of_nat (length (buf_list d)) <= num_buffers (queue d)).
  { rewrite Hbl. destruct (streaming (queue d)).
    - rewrite length_map. lia.
    - cbn [length Z.of_nat]. lia. }
  split; [exact Hn|]. split; [exact Hl|]. lia.
Qed.

Lemma reachable_buffer_count_witness :
  reachable streaming_device /\
  (num_buffers (queue streaming_device) = 0 \/
   2 <= num_buffers (queue streaming_device) <= 4) /\
  Z.of_nat (length (buf_list streaming_device)) <=
    num_buffers (queue streaming_device) /\
  Z.of_nat (length (buf_list streaming_device)) <= MAX_BUFFERS.
Proof.
  assert (Hr : reachable streaming_device).
  { exists [VIDIOC_REQBUFS 4; VIDIOC_QBUF 0; VIDIOC_QBUF 1; VIDIOC_STREAMON].
    reflexivity. }
  split; [exact Hr|]. exact (reachable_buffer_count streaming_device Hr).
Defined.

(** X15: the driver's state follows the queue: in every reachable state
    the device is Streaming exactly when the queue streams and Connected
    otherwise; no request puts it into the Error or the Disconnected
    state. *)
Theorem reachable_state_follows_queue (d : camera_device) :
  reachable d ->
  (state d = CAMERA_STATE_STREAMING <-> streaming (queue d) = true) /\
  (state d = CAMERA_STATE_CONNECTED <-> streaming (queue d) = false) /\
  state d <> CAMERA_STATE_ERROR /\
  state d <> CAMERA_STATE_DISCONNECTED.
Proof.
  intros Hr.
  destruct (reachable_driver_inv d Hr) as (_ & _ & _ & Hs & _).
  cbv zeta in Hs. rewrite Hs.
  destruct (streaming (queue d)); repeat split; intros; congruence.
Qed.

Lemma reachable_state_follows_queue_witness :
  reachable streaming_device /\
  (state streaming_device = CAMERA_STATE_STREAMING <->
   streaming (queue streaming_device) = true) /\
  (state streaming_device = CAMERA_STATE_CONNECTED <->
   streaming (queue streaming_device) = false) /\
  state streaming_device <> CAMERA_STATE_ERROR /\
  state streaming_device <> CAMERA_STATE_DISCONNECTED.
Proof.
  assert (Hr : reachable streaming_device).
  { exists [VIDIOC_REQBUFS 4; VIDIOC_QBUF 0; VIDIOC_QBUF 1; VIDIOC_STREAMON].
    reflexivity. }
  split; [exact Hr|].
  exact (reachable_state_follows_queue streaming_device Hr).
Defined.

(** X16: no buffer is ever on the driver's pending list twice: in every
    reachable state the pending list is empty unless the device streams,
    and while it streams it holds the queued buffers, each once, in the
    order they were queued, all ACTIVE and with an index below the number
    of allocated buffers. *)
Theorem reachable_pending_list (d : camera_device) :
  reachable d ->
  NoDup (map (fun b => vb_index (vb b)) (buf_list d)) /\
  Forall (fun b => vb_state (vb b) = VB2_BUF_STATE_ACTIVE /\
                   0 <= vb_index (vb b) < num_buffers (queue d))
         (buf_list d) /\
  (if streaming (queue d)
   then map (fun b => vb_index (vb b)) (buf_list d) = queued_list (queue d)
   else buf_list d = []).
Proof.
  intros Hr.
  destruct (reachable_driver_inv d Hr)
    as (_ & _ & _ & _ & Hnd & Hrg & _ & Hbl & _). cbv zeta in *.
  rewrite Hbl. destruct (streaming (queue d)).
  - assert (E : map (fun b => vb_index (vb b))
                  (map active_buffer (queued_list (queue d))) =
                queued_list (queue d)).
    { rewrite map_map. cbn [active_buffer vb vb_index]. apply map_id. }
    rewrite E. split; [exact Hnd|]. split; [|reflexivity].
    apply Forall_forall. intros b Hb.
    apply list_elem_of_In, in_map_iff in Hb as (i & <- & Hi).
    split; [reflexivity|]. cbn [active_buffer vb vb_index].
    rewrite Forall_forall in Hrg. apply Hrg, list_elem_of_In, Hi.
  - cbn [map]. split; [apply NoDup_nil_2|]. split; [constructor|reflexivity].
Qed.

Lemma reachable_pending_list_witness :
  reachable streaming_device /\
  NoDup (map (fun b => vb_index (vb b)) (buf_list streaming_device)) /\
  Forall (fun b => vb_state (vb b) = VB2_BUF_STATE_ACTIVE /\
                   0 <= vb_index (vb b) < num_buffers (queue streaming_device))
         (buf_list streaming_device) /\
  (if streaming (queue streaming_device)
   then map (fun b => vb_index (vb b)) (buf_list streaming_device) =
        queued_list (queue streaming_device)
   else buf_list streaming_device = []).
Proof.
  assert (Hr : reachable streaming_device).
  { exists [VIDIOC_REQBUFS 4; VIDIOC_QBUF 0; VIDIOC_QBUF 1; VIDIOC_STREAMON].
    reflexivity. }
  split; [exact Hr|]. exact (reachable_pending_list streaming_device Hr).
Defined.

(** X17: the driver never completes a frame: [vb2_buffer_done] is only
    reached from [camera_return_all_buffers], whose buffers the stream-off
    discards, so in every reachable state the done list is empty and
    VIDIOC_DQBUF never returns a buffer: on a non-blocking file it fails
    with EINVAL while the queue is not streaming and with EAGAIN while it
    is, and leaves the device as it was. *)
Theorem reachable_nothing_to_dequeue (d : camera_device) :
  reachable d ->
  done_list (queue d) = [] /\
  vb2_ioctl_dqbuf d =
    ((if streaming (queue d) then - EAGAIN else - EINVAL), d) /\
  fst (vb2_ioctl_dqbuf d) <> 0.
Proof.
  intros Hr.
  destruct (reachable_driver_inv d Hr) as (_ & _ & _ & _ & _ & _ & Hdl & _).
  cbv zeta in Hdl. split; [exact Hdl|].
  unfold vb2_ioctl_dqbuf. rewrite Hdl.
  destruct (streaming (queue d)); cbn [negb fst];
    (split; [reflexivity|vm_compute; discriminate]).
Qed.

Lemma reachable_nothing_to_dequeue_witness :
  reachable streaming_device /\
  done_list (queue streaming_device) = [] /\
  vb2_ioctl_dqbuf streaming_device =
    ((if streaming (queue streaming_device) then - EAGAIN else - EINVAL),
     streaming_device) /\
  fst (vb2_ioctl_dqbuf streaming_device) <> 0.
Proof.
  assert (Hr : reachable streaming_device).
  { exists [VIDIOC_REQBUFS 4; VIDIOC_QBUF 0; VIDIOC_QBUF 1; VIDIOC_STREAMON].
    reflexivity. }
  split; [exact Hr|]. exact (reachable_nothing_to_dequeue streaming_device Hr).
Defined.

(** On the freshly probed device the queue is not streaming and DQBUF is
    refused with EINVAL; on the started device it would block and returns
    EAGAIN. *)
Example dqbuf_results :
  vb2_ioctl_dqbuf camera_probe = (- EINVAL, camera_probe) /\
  vb2_ioctl_dqbuf streaming_device = (- EAGAIN, streaming_device).
Proof. split; reflexivity. Qed.

(** X18: the driver never counts a frame: nothing increments
    [frames_received] or [frames_dropped], so both are 0 in every
    reachable state. *)
Theorem reachable_counters_zero (d : camera_device) :
  reachable d -> frames_received d = 0 /\ frames_dropped d = 0.
Proof.
  intros Hr.
  destruct (reachable_driver_inv d Hr)
    as (_ & _ & _ & _ & _ & _ & _ & _ & Hc).
  unfold counters in Hc. injection Hc as H1 H2. split; assumption.
Qed.

Lemma reachable_counters_zero_witness :
  reachable streaming_device /\
  frames_received streaming_device = 0 /\
  frames_dropped streaming_device = 0.
Proof.
  assert (Hr : reachable streaming_device).
  { exists [VIDIOC_REQBUFS 4; VIDIOC_QBUF 0; VIDIOC_QBUF 1; VIDIOC_STREAMON].
    reflexivity. }
  split; [exact Hr|]. exact (reachable_counters_zero streaming_device Hr).
Defined.

(** X19: turning the stream on needs allocated buffers but no queued
    ones: on a reachable device that is not streaming and has buffers
    allocated, VIDIOC_STREAMON returns 0 and [camera_start_streaming]
    makes the device Streaming with exactly the queued buffers pending, in
    order, also when none is queued; the format is not touched. *)
Theorem streamon_needs_no_queued_buffer (d : camera_device) :
  reachable d ->
  streaming (queue d) = false ->
  0 < num_buffers (queue d) ->
  let d' := snd (vb2_ioctl_streamon d) in
  fst (vb2_ioctl_streamon d) = 0 /\
  state d' = CAMERA_STATE_STREAMING /\
  buf_list d' = map active_buffer (queued_list (queue d)) /\
  format d' = format d /\
  fst (camera_start_streaming d 0) = 0.
Proof.
  intros Hr Hs Hn. cbv zeta.
  destruct (reachable_driver_inv d Hr)
    as (_ & _ & _ & _ & _ & _ & _ & Hbl & _). cbv zeta in Hbl.
  rewrite Hs in Hbl.
  unfold vb2_ioctl_streamon. rewrite Hs.
  replace (num_buffers (queue d) =? 0) with false
    by (symmetry; apply Z.eqb_neq; lia).
  rewrite enqueue_all, Hbl.
  unfold camera_start_streaming, camera_init_streaming.
  cbn [Z.eqb negb fst snd set_queue set_buf_list state buf_list format app].
  repeat split.
Qed.

Lemma streamon_needs_no_queued_buffer_witness :
  let d := serve camera_probe (VIDIOC_REQBUFS 3) in
  reachable d /\
  streaming (queue d) = false /\
  0 < num_buffers (queue d) /\
  queued_list (queue d) = [] /\
  (let d' := snd (vb2_ioctl_streamon d) in
   fst (vb2_ioctl_streamon d) = 0 /\
   state d' = CAMERA_STATE_STREAMING /\
   buf_list d' = map active_buffer (queued_list (queue d)) /\
   format d' = format d /\
   fst (camera_start_streaming d 0) = 0).
Proof.
  cbv zeta.
  assert (Hr : reachable (serve camera_probe (VIDIOC_REQBUFS 3)))
    by (exists [VIDIOC_REQBUFS 3]; reflexivity).
  assert (Hs : streaming (queue (serve camera_probe (VIDIOC_REQBUFS 3)))
               = false) by reflexivity.
  assert (Hn : 0 < num_buffers (queue (serve camera_probe (VIDIOC_REQBUFS 3))))
    by reflexivity.
  split; [exact Hr|]. split; [exact Hs|]. split; [exact Hn|].
  split; [reflexivity|].
  exact (streamon_needs_no_queued_buffer _ Hr Hs Hn).
Defined.

(** X20: [camera_probe] leaves the stored image size at 0, so a buffer
    request made before any format is set asks for planes of 0 bytes,
    whatever the count; once any descriptor has been set,
    [camera_queue_setup] asks for the negotiated image size, which is at
    least 19200 bytes. *)
Theorem queue_setup_before_and_after_s_fmt
    (n : Z) (sizes : list Z) (f : v4l2_format) :
  sizeimage (pix (snd (camera_g_fmt camera_probe))) = 0 /\
  (let '(ret, _, _, sizes') := camera_queue_setup camera_probe n 0 sizes in
   ret = 0 /\ hd 0 sizes' = 0) /\
  (let d := snd (fst (camera_s_fmt camera_probe f)) in
   let '(ret, _, _, sizes') := camera_queue_setup d n 0 sizes in
   ret = 0 /\
   hd 0 sizes' = sizeimage (pix (snd (camera_try_fmt f))) /\
   19200 <= hd 0 sizes' <= CAMERA_MAX_FRAME_SIZE).
Proof.
  split; [reflexivity|]. split; [split; reflexivity|].
  cbv zeta. unfold camera_queue_setup. cbn [Z.eqb negb hd].
  split; [reflexivity|]. split; [reflexivity|].
  destruct (negotiated_valid _ (try_fmt_fixpoint f)) as (_ & _ & _ & Hs).
  exact Hs.
Qed.

(** ** Buffer sizes *)

(** X21: [camera_queue_setup] and [camera_buf_prepare] agree on buffer
    sizes: a plane of the size [camera_queue_setup] asks for passes
    [camera_buf_prepare]; called with [*nplanes] set,
    [camera_queue_setup] returns for plane size [sizes[0]] just what
    [camera_buf_prepare] returns for it, which is 0 when the plane holds
    an image of the stored format and EINVAL when it does not. *)
Theorem queue_setup_agrees_with_buf_prepare
    (d : camera_device) (n nplanes : Z) (sizes : list Z) :
  (let '(ret, _, _, sizes') := camera_queue_setup d n 0 sizes in
   ret = 0 /\ camera_buf_prepare d (hd 0 sizes') = 0) /\
  fst (fst (fst (camera_queue_setup d n nplanes sizes))) =
    (if nplanes =? 0 then 0 else camera_buf_prepare d (hd 0 sizes)) /\
  camera_buf_prepare d (hd 0 sizes) =
    (if sizeimage (pix (format d)) <=? hd 0 sizes then 0 else - EINVAL).
Proof.
  unfold camera_queue_setup, camera_buf_prepare. split; [|split].
  - cbn [Z.eqb negb hd]. rewrite Z.ltb_irrefl. split; reflexivity.
  - destruct (nplanes =? 0); reflexivity.
  - destruct (Z.ltb_spec (hd 0 sizes) (sizeimage (pix (format d))));
      destruct (Z.leb_spec (sizeimage (pix (format d))) (hd 0 sizes));
      try lia; reflexivity.
Qed.
